(** * AnalyticsOverview: session uptime tracker, scenario counter

    A shallow embedding of [src/components/AnalyticsOverview.js]: the
    persisted key/value store ([localStorage]), the React state of the
    component and the closures its effects capture, the helpers
    [formatUptime], [startSession], [endSession], the 60-second tick and
    [fetchScenarios].

    Numbers.  Every number the component computes is an integer count of
    milliseconds or minutes; they are modelled as [Z], that is, as JavaScript
    numbers in the range where double arithmetic on integers is exact and
    [String] prints plain decimal digits.  [NaN], which [parseInt] returns on
    unparsable input, is [None] of [option Z].

    Strings are [string] (sequences of 8-bit characters). *)

From Stdlib Require Import ZArith Lia Ascii.
From stdpp Require Import base tactics option list strings pretty gmap.

Local Open Scope Z_scope.

(** ** JavaScript primitives used by the component *)

Module JS.

(** A JavaScript number as far as this component is concerned. *)
Abbreviation number := (option Z).
Abbreviation NaN := (@None Z).

(** [String(n)] for an integer [n]. *)
Definition String_ (n : Z) : string := pretty n.

(** [x || 0] for a number [x]: [NaN] and [0] are falsy. *)
Definition orZero (x : number) : Z :=
  match x with
  | Some n => n
  | None => 0
  end.

(** Truthiness of a number, as tested by [if (startTs)]: the value when
    it is truthy, that is, neither [NaN] nor [0]. *)
Definition truthyValue (x : number) : option Z :=
  match x with
  | Some n => if n =? 0 then None else Some n
  | None => None
  end.

Definition digit (c : ascii) : option Z := Z.of_nat <$> Ascii.is_nat c.

(** Value of the longest prefix of decimal digits of [s], continuing from
    the digits already read, whose value is [acc]. *)
Fixpoint digits (s : string) (acc : Z) : Z :=
  match s with
  | String c r =>
      match digit c with
      | Some d => digits r (10 * acc + d)
      | None => acc
      end
  | EmptyString => acc
  end.

Fixpoint trimStart (s : string) : string :=
  match s with
  | String c r => if Ascii.is_space c then trimStart r else s
  | EmptyString => s
  end.

(** [parseInt(s, 10)] on a string: leading white space is skipped, one
    sign is accepted, then the longest run of decimal digits is read; when
    there is no digit the result is [NaN]. *)
Definition parseIntStr (s : string) : number :=
  let t := trimStart s in
  let '(sign, body) :=
    match t with
    | String "-" r => (-1, r)
    | String "+" r => (1, r)
    | _ => (1, t)
    end in
  match body with
  | String c _ =>
      match digit c with
      | Some _ => Some (sign * digits body 0)
      | None => NaN
      end
  | EmptyString => NaN
  end.

(** [parseInt(v, 10)] on what [localStorage.getItem] returns: a string, or
    [null], which [parseInt] first converts to the string ["null"]. *)
Definition parseInt (v : option string) : number :=
  parseIntStr (default "null" v).

Fixpoint repeat0 (n : nat) : string :=
  match n with
  | O => ""
  | S k => String "0" (repeat0 k)
  end.

(** [s.padStart(n, '0')]. *)
Definition padStart0 (n : nat) (s : string) : string :=
  repeat0 (n - String.length s) +:+ s.

(** [s.split(sep)[0]] for a one-character separator. *)
Fixpoint splitHead (sep : ascii) (s : string) : string :=
  match s with
  | String c r => if decide (c = sep) then "" else String c (splitHead sep r)
  | EmptyString => ""
  end.

(** [Math.floor(a / b)] for integers [a] and [b > 0]. *)
Definition floorDiv (a b : Z) : Z := a `div` b.

(** [a % b]: the remainder has the sign of [a]. *)
Definition remainder (a b : Z) : Z := a `rem` b.

(** Every character of the string is a decimal digit. *)
Fixpoint allDigits (s : string) : Prop :=
  match s with
  | String c r => is_Some (digit c) ∧ allDigits r
  | EmptyString => True
  end.

(** No character of the string is [sep]. *)
Fixpoint avoids (sep : ascii) (s : string) : Prop :=
  match s with
  | String c r => c ≠ sep ∧ avoids sep r
  | EmptyString => True
  end.

End JS.

(** ** [formatUptime] *)

Definition formatUptime (ms : Z) : string :=
  let mins := JS.floorDiv ms 60000 in
  let h := JS.padStart0 2 (JS.String_ (JS.floorDiv mins 60)) in
  let m := JS.padStart0 2 (JS.String_ (JS.remainder mins 60)) in
  h +:+ "h " +:+ m +:+ "m".

(** ** Time values and the calendar

    A time value is a number of milliseconds since the epoch, as returned by
    [Date.now()] and held by a [Date] object.  The calendar functions are
    those of the ECMAScript [Date] object; [YearFromTime], which ECMAScript
    specifies as the largest year starting at or before the time value, is
    computed from an estimate that is off by at most one year. *)

Module Date.

Definition msPerDay : Z := 86400000.
Definition msPerHour : Z := 3600000.
Definition msPerMinute : Z := 60000.
Definition msPerSecond : Z := 1000.

Definition Day (t : Z) : Z := t `div` msPerDay.
Definition TimeWithinDay (t : Z) : Z := t `mod` msPerDay.

Definition DaysInYear (y : Z) : Z :=
  if negb (y `mod` 4 =? 0) then 365
  else if negb (y `mod` 100 =? 0) then 366
  else if negb (y `mod` 400 =? 0) then 365
  else 366.

Definition DayFromYear (y : Z) : Z :=
  365 * (y - 1970) + (y - 1969) `div` 4 - (y - 1901) `div` 100
  + (y - 1601) `div` 400.

Definition YearFromDay (d : Z) : Z :=
  let y := 1970 + (400 * d) `div` 146097 in
  if d <? DayFromYear y then y - 1
  else if DayFromYear (y + 1) <=? d then y + 1
  else y.

Definition YearFromTime (t : Z) : Z := YearFromDay (Day t).

Definition InLeapYear (t : Z) : Z :=
  if DaysInYear (YearFromTime t) =? 366 then 1 else 0.

Definition DayWithinYear (t : Z) : Z := Day t - DayFromYear (YearFromTime t).

(** Months are numbered from 0 (January) to 11 (December). *)
Definition MonthFromTime (t : Z) : Z :=
  let d := DayWithinYear t in
  let leap := InLeapYear t in
  if d <? 31 then 0
  else if d <? 59 + leap then 1
  else if d <? 90 + leap then 2
  else if d <? 120 + leap then 3
  else if d <? 151 + leap then 4
  else if d <? 181 + leap then 5
  else if d <? 212 + leap then 6
  else if d <? 243 + leap then 7
  else if d <? 273 + leap then 8
  else if d <? 304 + leap then 9
  else if d <? 334 + leap then 10
  else 11.

Definition DateFromTime (t : Z) : Z :=
  let d := DayWithinYear t in
  let leap := InLeapYear t in
  match MonthFromTime t with
  | 0 => d + 1
  | 1 => d - 30
  | 2 => d - 58 - leap
  | 3 => d - 89 - leap
  | 4 => d - 119 - leap
  | 5 => d - 150 - leap
  | 6 => d - 180 - leap
  | 7 => d - 211 - leap
  | 8 => d - 242 - leap
  | 9 => d - 272 - leap
  | 10 => d - 303 - leap
  | _ => d - 333 - leap
  end.

Definition HourFromTime (t : Z) : Z := (t `div` msPerHour) `mod` 24.
Definition MinFromTime (t : Z) : Z := (t `div` msPerMinute) `mod` 60.
Definition SecFromTime (t : Z) : Z := (t `div` msPerSecond) `mod` 60.
Definition msFromTime (t : Z) : Z := t `mod` msPerSecond.

Definition MakeTime (hour min sec ms : Z) : Z :=
  hour * msPerHour + min * msPerMinute + sec * msPerSecond + ms.
Definition MakeDate (day : Z) (time : Z) : Z := day * msPerDay + time.

(** The year of an ISO date: four digits from 0 to 9999, otherwise a sign
    and six digits. *)
Definition yearString (y : Z) : string :=
  if (0 <=? y) && (y <=? 9999) then JS.padStart0 4 (JS.String_ y)
  else (if 0 <? y then "+" else "-") +:+ JS.padStart0 6 (JS.String_ (Z.abs y)).

(** The ["YYYY-MM-DD"] part of [toISOString]. *)
Definition isoDate (t : Z) : string :=
  yearString (YearFromTime t) +:+ "-"
  +:+ JS.padStart0 2 (JS.String_ (MonthFromTime t + 1)) +:+ "-"
  +:+ JS.padStart0 2 (JS.String_ (DateFromTime t)).

(** The ["HH:mm:ss.sssZ"] part of [toISOString]. *)
Definition isoTime (t : Z) : string :=
  JS.padStart0 2 (JS.String_ (HourFromTime t)) +:+ ":"
  +:+ JS.padStart0 2 (JS.String_ (MinFromTime t)) +:+ ":"
  +:+ JS.padStart0 2 (JS.String_ (SecFromTime t)) +:+ "."
  +:+ JS.padStart0 3 (JS.String_ (msFromTime t)) +:+ "Z".

(** [new Date(t).toISOString()]: always in UTC. *)
Definition toISOString (t : Z) : string := isoDate t +:+ "T" +:+ isoTime t.

(** Local time, for a zone at a fixed offset [tz] (in milliseconds, east
    of Greenwich positive) from UTC. *)
Definition LocalTime (tz t : Z) : Z := t + tz.
Definition UTC (tz t : Z) : Z := t - tz.

(** [d.setHours(hour, min, sec, ms)] on a [Date] holding [t]: the local
    calendar day is kept and the local time of day is replaced. *)
Definition setHours (tz : Z) (hour min sec ms : Z) (t : Z) : Z :=
  UTC tz (MakeDate (Day (LocalTime tz t)) (MakeTime hour min sec ms)).

End Date.

(** [const todayKey = new Date().toISOString().split('T')[0]], for a clock
    that reads [now]. *)
Definition todayKey (now : Z) : string :=
  JS.splitHead "T" (Date.toISOString now).

(** ** The state the component works on *)

(** An Uptime History Entry, [{ time, uptime }]. *)
Record Entry := { time : string; uptime : Z }.

(** The five [useState] cells. *)
Record Hooks := {
  totalSessions : JS.number;
  totalScenarios : nat;
  dailyUptime : Z;
  uptimeHistory : list Entry;
  sessionActive : bool
}.

Definition initialHooks : Hooks :=
  {| totalSessions := Some 0; totalScenarios := 0%nat; dailyUptime := 0;
     uptimeHistory := []; sessionActive := false |}.

#[global] Instance Entry_eq_dec : EqDecision Entry.
Proof. solve_decision. Defined.

#[global] Instance Hooks_eq_dec : EqDecision Hooks.
Proof. solve_decision. Defined.

(** A write to [localStorage]. *)
Inductive StorageOp :=
  | SetItem (k v : string)
  | RemoveItem (k : string).

(** What an event handler can read and change: the clock (one reading for
    the whole handler, which runs to completion), [localStorage] together
    with the journal of the writes made to it (oldest first), and the React
    state. *)
Record World := {
  clock : Z;
  items : gmap string string;
  journal : list StorageOp;
  hooks : Hooks
}.

(** The variables of one render that the functions created in that render
    capture: the [sessionActive] state and [todayKey]. *)
Record Closure := {
  c_sessionActive : bool;
  c_todayKey : string
}.

(** Handlers are state transformers over the world. *)
Definition M (A : Type) : Type := World → A * World.

#[global] Instance M_ret : MRet M := λ A x w, (x, w).
#[global] Instance M_bind : MBind M := λ A B f m w, let '(x, w') := m w in f x w'.
#[global] Instance M_fmap : FMap M := λ A B f m w, let '(x, w') := m w in (f x, w').

Definition exec {A} (m : M A) (w : World) : World := (m w).2.

Definition dateNow : M Z := λ w, (clock w, w).

Definition getItem (k : string) : M (option string) := λ w, (items w !! k, w).

Definition setItem (k v : string) : M unit := λ w,
  ((), {| clock := clock w; items := <[k := v]> (items w);
          journal := journal w ++ [SetItem k v]; hooks := hooks w |}).

Definition removeItem (k : string) : M unit := λ w,
  ((), {| clock := clock w; items := delete k (items w);
          journal := journal w ++ [RemoveItem k]; hooks := hooks w |}).

Definition setHooks (f : Hooks → Hooks) : M unit := λ w,
  ((), {| clock := clock w; items := items w; journal := journal w;
          hooks := f (hooks w) |}).

Definition setTotalSessions (v : JS.number) : M unit :=
  setHooks (λ h, {| totalSessions := v; totalScenarios := totalScenarios h;
                    dailyUptime := dailyUptime h;
                    uptimeHistory := uptimeHistory h;
                    sessionActive := sessionActive h |}).

Definition setTotalScenarios (v : nat) : M unit :=
  setHooks (λ h, {| totalSessions := totalSessions h; totalScenarios := v;
                    dailyUptime := dailyUptime h;
                    uptimeHistory := uptimeHistory h;
                    sessionActive := sessionActive h |}).

Definition setDailyUptime (v : Z) : M unit :=
  setHooks (λ h, {| totalSessions := totalSessions h;
                    totalScenarios := totalScenarios h; dailyUptime := v;
                    uptimeHistory := uptimeHistory h;
                    sessionActive := sessionActive h |}).

(** [setUptimeHistory] is called with an updater function. *)
Definition setUptimeHistory (f : list Entry → list Entry) : M unit :=
  setHooks (λ h, {| totalSessions := totalSessions h;
                    totalScenarios := totalScenarios h;
                    dailyUptime := dailyUptime h;
                    uptimeHistory := f (uptimeHistory h);
                    sessionActive := sessionActive h |}).

Definition setSessionActive (v : bool) : M unit :=
  setHooks (λ h, {| totalSessions := totalSessions h;
                    totalScenarios := totalScenarios h;
                    dailyUptime := dailyUptime h;
                    uptimeHistory := uptimeHistory h; sessionActive := v |}).

(** The key [`dailyUptime_${todayKey}`]. *)
Definition dailyKey (todayKey : string) : string := "dailyUptime_" +:+ todayKey.

(** [parseInt(localStorage.getItem(`dailyUptime_${todayKey}`), 10) || 0]. *)
Definition readDailyUptime (todayKey : string) : M Z :=
  (λ v, JS.orZero (JS.parseInt v)) <$> getItem (dailyKey todayKey).

(** ** The session tracker *)

Definition startSession (c : Closure) : M unit :=
  if negb (c_sessionActive c) then
    now ← dateNow;
    setItem "sessionStart" (JS.String_ now);;
    setItem "sessionActive" "true";;
    setSessionActive true
  else mret ().

Definition endSession (c : Closure) : M unit :=
  startTs ← JS.parseInt <$> getItem "sessionStart";
  match JS.truthyValue startTs with
  | Some startTs =>
      now ← dateNow;
      let elapsed := now - startTs in
      prev ← readDailyUptime (c_todayKey c);
      let total := prev + elapsed in
      setItem (dailyKey (c_todayKey c)) (JS.String_ total);;
      setDailyUptime total
  | None => mret ()
  end;;
  removeItem "sessionStart";;
  setItem "sessionActive" "false";;
  setSessionActive false.

(** A remote record of the [scenarios] collection; only its [date] field
    matters to the component. *)
Record Scenario := { docId : string; date : Z }.

(** [getDocs(query(collection, where('date', '>=', lo), where('date', '<=',
    hi)))]: the records of the collection within the range. *)
Definition getDocs (lo hi : Z) (docs : list Scenario) : list Scenario :=
  filter (λ d, lo ≤ date d ≤ hi) docs.

Section Component.

(** The host: its time zone, and how its locale displays a time of day. *)
Variable tz : Z.
Variable toLocaleTimeString : Z → string.

(** The callback of [setInterval], run every 60000 ms. *)
Definition tick (c : Closure) : M unit :=
  if c_sessionActive c then
    startTs ← JS.parseInt <$> getItem "sessionStart";
    match JS.truthyValue startTs with
    | Some startTs =>
        now ← dateNow;
        let elapsed := now - startTs in
        prev ← readDailyUptime (c_todayKey c);
        let total := prev + elapsed in
        setDailyUptime total;;
        display ← toLocaleTimeString <$> dateNow;
        setUptimeHistory (λ prevHist,
          prevHist ++ [{| time := display;
                          uptime := JS.floorDiv total 60000 |}]);;
        setItem (dailyKey (c_todayKey c)) (JS.String_ total)
    | None => mret ()
    end
  else mret ().

(** The body of the first effect, run once after the first render. *)
Definition mountEffect (c : Closure) : M unit :=
  active ← (λ v, bool_decide (v = Some "true")) <$> getItem "sessionActive";
  setSessionActive active;;
  storedUptime ← readDailyUptime (c_todayKey c);
  setDailyUptime storedUptime;;
  if negb active then startSession c else mret ().

(** The third effect: [parseInt(localStorage.getItem('sessionCount') || '0',
    10)]; the empty string is falsy, like [null]. *)
Definition sessionCountEffect : M unit :=
  v ← getItem "sessionCount";
  let s := match v with
           | Some s => if decide (s = "") then "0" else s
           | None => "0"
           end in
  setTotalSessions (JS.parseIntStr s).

(** The first half of [fetchScenarios]: the bounds of the range query, each
    from a [new Date()] of its own. *)
Definition scenarioWindow : M (Z * Z) :=
  startOfDay ← Date.setHours tz 0 0 0 0 <$> dateNow;
  endOfDay ← Date.setHours tz 23 59 59 999 <$> dateNow;
  mret (startOfDay, endOfDay).

(** The second half, when the snapshot of the query arrives:
    [setTotalScenarios(snapshot.size)]. *)
Definition applySnapshot (window : Z * Z) (docs : list Scenario) : M unit :=
  setTotalScenarios (length (getDocs window.1 window.2 docs)).

(** One render: the closure that the functions of this render capture. *)
Definition render : M Closure := λ w,
  ({| c_sessionActive := sessionActive (hooks w);
      c_todayKey := todayKey (clock w) |}, w).

(** A mounted instance of the component: the closure of the first render
    (captured by the [beforeunload] listener and by the cleanup of the first
    effect, whose dependency list is empty), the closure captured by the
    running interval (the effect is run again only when [sessionActive]
    changes), the closure of the latest render (captured by the End Session
    button), and the range of the scenario query still in flight. *)
Record Instance := {
  firstRender : Closure;
  intervalRender : Closure;
  lastRender : Closure;
  pendingQuery : option (Z * Z)
}.

Record Page := {
  world : World;
  inst : option Instance
}.

Inductive Event :=
  | Mount
  | Tick
  | ClickEndSession
  | BeforeUnload
  | Snapshot (docs : list Scenario)
  | Unmount.

(** After a handler, React renders again when a state cell changed; the
    interval effect is then run again if [sessionActive] differs from the
    value its closure captured. *)
Definition rerender (before : Hooks) (i : Instance) (w : World) : Instance :=
  if decide (hooks w = before) then i
  else
    let c := (render w).1 in
    {| firstRender := firstRender i;
       intervalRender :=
         if decide (c_sessionActive c = c_sessionActive (intervalRender i))
         then intervalRender i else c;
       lastRender := c;
       pendingQuery := pendingQuery i |}.

Definition setClock (now : Z) (w : World) : World :=
  {| clock := now; items := items w; journal := journal w; hooks := hooks w |}.

Definition resetHooks (w : World) : World :=
  {| clock := clock w; items := items w; journal := journal w;
     hooks := initialHooks |}.

(** Mounting: the first render with the initial state, then the four
    effects in order, then the render their state updates cause. *)
Definition mount (w : World) : Page :=
  let w0 := resetHooks w in
  let c0 := (render w0).1 in
  let w1 := exec (mountEffect c0) w0 in
  let w2 := exec sessionCountEffect w1 in
  let '(window, w3) := scenarioWindow w2 in
  let i0 := {| firstRender := c0; intervalRender := c0; lastRender := c0;
               pendingQuery := Some window |} in
  {| world := w3; inst := Some (rerender initialHooks i0 w3) |}.

Definition handle (i : Instance) (script : M unit) (w : World) : Page :=
  let w' := exec script w in
  {| world := w'; inst := Some (rerender (hooks w) i w') |}.

(** One event, at wall-clock time [now]. *)
Definition step (now : Z) (e : Event) (p : Page) : Page :=
  let w := setClock now (world p) in
  match inst p, e with
  | None, Mount => mount w
  | None, _ => p
  | Some i, Mount => p
  | Some i, Tick => handle i (tick (intervalRender i)) w
  | Some i, ClickEndSession => handle i (endSession (lastRender i)) w
  | Some i, BeforeUnload => handle i (endSession (firstRender i)) w
  | Some i, Snapshot docs =>
      match pendingQuery i with
      | Some window =>
          handle {| firstRender := firstRender i;
                    intervalRender := intervalRender i;
                    lastRender := lastRender i; pendingQuery := None |}
                 (applySnapshot window docs) w
      | None => p
      end
  | Some i, Unmount =>
      {| world := exec (endSession (firstRender i)) w; inst := None |}
  end.

(** A run: events with their times, oldest first. *)
Definition run (evs : list (Z * Event)) (p : Page) : Page :=
  foldl (λ q te, step te.1 te.2 q) p evs.

End Component.

(** A page on which the component is not mounted. *)
Definition unmounted (w : World) : Page := {| world := w; inst := None |}.

Definition emptyWorld : World :=
  {| clock := 0; items := ∅; journal := []; hooks := initialHooks |}.

(** The persisted daily total of a day, read the way the component reads
    it. *)
Definition persistedTotal (w : World) (day : string) : Z :=
  JS.orZero (JS.parseInt (items w !! dailyKey day)).

(** The start marker, when one is recorded that the component accepts. *)
Definition startMarker (w : World) : option Z :=
  JS.truthyValue (JS.parseInt (items w !! "sessionStart")).

(** The flag [localStorage.getItem('sessionActive') === 'true']. *)
Definition storedActive (w : World) : bool :=
  bool_decide (items w !! "sessionActive" = Some "true").

(** How many times the journal sets the key [k]. *)
Definition setsKey (k : string) (op : StorageOp) : bool :=
  match op with
  | SetItem k' _ => bool_decide (k' = k)
  | RemoveItem _ => false
  end.

Definition writesOf (k : string) (j : list StorageOp) : nat :=
  length (filter (λ op, setsKey k op) j).

(** ** The scenario count and the tick schedule, in the words of the
    specification *)

(** The time value whose local time is 00:00:00.000 on the local calendar
    day of [now], and the one whose local time is 23:59:59.999. *)
Definition startOfLocalDay (tz now : Z) : Z :=
  Date.UTC tz (Date.Day (Date.LocalTime tz now) * Date.msPerDay).

Definition endOfLocalDay (tz now : Z) : Z :=
  startOfLocalDay tz now + (Date.msPerDay - 1).

(** The number of records whose date lies within the current local day. *)
Definition spec_scenarioCount (tz now : Z) (docs : list Scenario) : nat :=
  length (filter (λ d, startOfLocalDay tz now ≤ date d ≤ endOfLocalDay tz now) docs).

(** [n] consecutive ticks, 60000 ms apart, the first one 60000 ms after the
    start marker [startTs]. *)
Definition tickEvents (startTs : Z) (n : nat) : list (Z * Event) :=
  (λ k : nat, (startTs + 60000 * Z.of_nat k, Tick)) <$> seq 1 n.

(** ** A concrete host and concrete runs, for evaluation *)

(** A 24-hour display of the local time of day, ["HH:mm:ss"], standing for
    [toLocaleTimeString]. *)
Definition hhmmss (tz t : Z) : string :=
  let l := Date.LocalTime tz t in
  JS.padStart0 2 (JS.String_ (Date.HourFromTime l)) +:+ ":"
  +:+ JS.padStart0 2 (JS.String_ (Date.MinFromTime l)) +:+ ":"
  +:+ JS.padStart0 2 (JS.String_ (Date.SecFromTime l)).

(** 2024-01-01T10:00:00.000Z and 2024-01-01T23:59:30.000Z. *)
Definition morning : Z := 1704103200000.
Definition beforeMidnight : Z := 1704153570000.

(** The component mounted at [t] on an empty storage, in a UTC host. *)
Definition mountedAt (t : Z) : Page :=
  step 0 (hhmmss 0) t Mount (unmounted emptyWorld).

(** A storage whose start marker is unparsable. *)
Definition garbledWorld : World :=
  {| clock := morning;
     items := <["sessionStart" := "yesterday"]> (<["dailyUptime_2024-01-01" := "4200"]> ∅);
     journal := []; hooks := initialHooks |}.

(** ** The trend chart *)

(** [chartData.labels] and [chartData.datasets[0].data]: the display times
    and the minutes of the Uptime History, in order. *)
Definition chartLabels (h : Hooks) : list string := time <$> uptimeHistory h.
Definition chartValues (h : Hooks) : list Z := uptime <$> uptimeHistory h.

(** A series that never goes down. *)
Definition nondecreasing (l : list Z) : Prop :=
  ∀ (i j : nat) (a b : Z), (i ≤ j)%nat → l !! i = Some a → l !! j = Some b → a ≤ b.

(** What holds of the chart as long as the component lives: the series
    never goes down; the interval's closure agrees with the [sessionActive]
    state; and while that closure is active, no point of the series is above
    the whole minutes of the total persisted under the closure's date. *)
Definition chartInv (p : Page) : Prop :=
  nondecreasing (chartValues (hooks (world p)))
  ∧ match inst p with
    | Some i =>
        sessionActive (hooks (world p)) = c_sessionActive (intervalRender i)
        ∧ (c_sessionActive (intervalRender i) = true →
           Forall (λ a, a ≤ persistedTotal (world p) (c_todayKey (intervalRender i))
                            `div` 60000)
                  (chartValues (hooks (world p))))
    | None => True
    end.

(** The first and the last time value of the years 0000 to 9999, whose ISO
    year has four digits. *)
Definition firstFourDigitTime : Z := -62167219200000.
Definition lastFourDigitTime : Z := 253402300799999.

(** The instance that [mountedAt morning] holds. *)
Definition morningInstance : Instance :=
  {| firstRender := {| c_sessionActive := false; c_todayKey := "2024-01-01" |};
     intervalRender := {| c_sessionActive := true; c_todayKey := "2024-01-01" |};
     lastRender := {| c_sessionActive := true; c_todayKey := "2024-01-01" |};
     pendingQuery := Some (1704067200000, 1704153599999) |}.

(** A storage left behind by a session that was never ended: the flag says
    active and the marker is that of 2024-01-01T10:00:00.000Z. *)
Definition resumableWorld : World :=
  {| clock := 0;
     items := <["sessionActive" := "true"]> (<["sessionStart" := "1704103200000"]> ∅);
     journal := []; hooks := initialHooks |}.

(* ===================================================================== *)
(** * Properties *)
(* ===================================================================== *)

(** ** Numerals: printing and parsing *)

Module JSFacts.
Import JS.

Lemma digit_pretty_N_char (d : N) :
  (d < 10)%N → digit (pretty_N_char d) = Some (Z.of_N d).
Proof.
  intros Hd.
  assert (d = 0 ∨ d = 1 ∨ d = 2 ∨ d = 3 ∨ d = 4 ∨ d = 5 ∨ d = 6 ∨ d = 7
          ∨ d = 8 ∨ d = 9)%N as Hcases by lia.
  repeat destruct Hcases as [-> | Hcases]; try subst d; reflexivity.
Qed.

Lemma pretty_N_go_small (x : N) (s : string) :
  (0 < x < 10)%N → pretty_N_go x s = String (pretty_N_char x) s.
Proof.
  intros [Hpos Hlt]. rewrite pretty_N_go_step by done.
  rewrite (N.div_small x 10), (N.mod_small x 10) by done. apply pretty_N_go_0.
Qed.

(** Reading back what [pretty_N_go] printed in front of [s]. *)
Lemma digits_pretty_N_go (x : N) (s : string) :
  digits (pretty_N_go x s) 0 = digits s (Z.of_N x).
Proof.
  revert s. induction (N.lt_wf_0 x) as [x _ IH]; intros s.
  destruct (decide (x = 0%N)) as [-> | Hx]; [by rewrite pretty_N_go_0|].
  rewrite pretty_N_go_step by lia.
  rewrite IH by (apply N.div_lt; lia). cbn [digits].
  rewrite digit_pretty_N_char by (apply N.mod_lt; lia).
  f_equal. rewrite N2Z.inj_div, N2Z.inj_mod. change (Z.of_N 10) with 10.
  pose proof (Z.div_mod (Z.of_N x) 10). lia.
Qed.

(** A positive number is printed with a digit in front. *)
Lemma pretty_N_go_head (x : N) (s : string) :
  (0 < x)%N →
  ∃ c r, pretty_N_go x s = String c r ∧ is_Some (digit c).
Proof.
  revert s. induction (N.lt_wf_0 x) as [x _ IH]; intros s Hx.
  destruct (decide (x < 10)%N) as [Hlt | Hge].
  - rewrite pretty_N_go_small by done. eexists _, _. split; [done|].
    rewrite digit_pretty_N_char by done. eauto.
  - rewrite pretty_N_go_step by done. apply IH.
    + apply N.div_lt; lia.
    + apply N.div_str_pos. lia.
Qed.

Lemma allDigits_pretty_N_go (x : N) (s : string) :
  allDigits s → allDigits (pretty_N_go x s).
Proof.
  revert s. induction (N.lt_wf_0 x) as [x _ IH]; intros s Hs.
  destruct (decide (x = 0%N)) as [-> | Hx]; [by rewrite pretty_N_go_0|].
  rewrite pretty_N_go_step by lia. apply IH; [apply N.div_lt; lia|].
  split; [|done].
  rewrite digit_pretty_N_char by (apply N.mod_lt; lia). eauto.
Qed.

Lemma pretty_N_unfold (x : N) :
  pretty x = if decide (x = 0%N) then "0" else pretty_N_go x "".
Proof. reflexivity. Qed.

Lemma allDigits_pretty_N (x : N) : allDigits (pretty x).
Proof.
  rewrite pretty_N_unfold. case_decide.
  - split; [by eexists|done].
  - by apply allDigits_pretty_N_go.
Qed.

Lemma digits_pretty_N (x : N) : digits (pretty x) 0 = Z.of_N x.
Proof.
  rewrite pretty_N_unfold. case_decide as Hx; [by subst|].
  by rewrite digits_pretty_N_go.
Qed.

Lemma parseIntStr_digit_head (c : ascii) (r : string) :
  is_Some (digit c) → parseIntStr (String c r) = Some (digits (String c r) 0).
Proof.
  intros [d Hd]. unfold parseIntStr.
  assert (Ascii.is_space c = false) as Hsp.
  { destruct c as [[] [] [] [] [] [] [] []]; try reflexivity; discriminate. }
  cbn [trimStart]. rewrite Hsp.
  assert (c ≠ "-"%char ∧ c ≠ "+"%char) as [Hm Hp].
  { split; intros ->; discriminate. }
  destruct c as [[] [] [] [] [] [] [] []]; try done;
    rewrite ?Hd; try (cbn in Hd; discriminate); rewrite Z.mul_1_l; reflexivity.
Qed.

Lemma parseIntStr_pretty_N (x : N) : parseIntStr (pretty x) = Some (Z.of_N x).
Proof.
  rewrite <-digits_pretty_N. rewrite pretty_N_unfold. case_decide as Hx.
  - reflexivity.
  - destruct (pretty_N_go_head x "") as (c & r & -> & Hc); [lia|].
    by apply parseIntStr_digit_head.
Qed.

Lemma parseIntStr_minus_digit_head (c : ascii) (r : string) :
  is_Some (digit c) →
  parseIntStr (String "-" (String c r)) = Some (- digits (String c r) 0).
Proof.
  intros [d Hd]. unfold parseIntStr. cbn [trimStart Ascii.is_space].
  cbn beta iota. rewrite Hd. f_equal; lia.
Qed.

(** What [String] prints, [parseInt] reads back. *)
Lemma parseInt_String (n : Z) : parseInt (Some (String_ n)) = Some n.
Proof.
  unfold parseInt, String_. cbn [default].
  destruct n as [|p|p].
  - reflexivity.
  - apply (parseIntStr_pretty_N (N.pos p)).
  - change (pretty (Z.neg p)) with (String "-" (pretty (N.pos p))).
    pose proof (digits_pretty_N (N.pos p)) as Hd.
    rewrite pretty_N_unfold in *. case_decide; [done|].
    destruct (pretty_N_go_head (N.pos p) "") as (c & r & Heq & Hc); [lia|].
    unfold id. rewrite Heq in Hd |- *.
    rewrite parseIntStr_minus_digit_head by done.
    rewrite Hd. reflexivity.
Qed.

Lemma pretty_Z_nonneg (n : Z) : 0 ≤ n → String_ n = pretty (Z.to_N n).
Proof. intros Hn. destruct n as [|p|p]; [done|done|lia]. Qed.

Lemma string_length_app (s t : string) :
  String.length (s +:+ t) = (String.length s + String.length t)%nat.
Proof.
  induction s as [|c s IH]; [done|].
  change (S (String.length (s +:+ t)) = S (String.length s + String.length t)).
  by rewrite IH.
Qed.

Lemma length_repeat0 (k : nat) : String.length (repeat0 k) = k.
Proof. induction k as [|k IH]; [done|]. cbn. by rewrite IH. Qed.

Lemma length_padStart0 (n : nat) (s : string) :
  String.length (padStart0 n s) = (n `max` String.length s)%nat.
Proof. unfold padStart0. rewrite string_length_app, length_repeat0. lia. Qed.

Lemma allDigits_padStart0 (n : nat) (s : string) :
  allDigits s → allDigits (padStart0 n s).
Proof.
  intros Hs. unfold padStart0.
  induction (n - String.length s)%nat as [|k IH]; [done|].
  split; [by eexists|done].
Qed.

(** Zeros in front do not change the value of a numeral. *)
Lemma digits_padStart0 (n : nat) (s : string) :
  digits (padStart0 n s) 0 = digits s 0.
Proof.
  unfold padStart0. induction (n - String.length s)%nat as [|k IH]; done.
Qed.

Lemma length_pretty_lt_100 (x : N) :
  (x < 100)%N → (String.length (pretty x) ≤ 2)%nat.
Proof.
  intros Hx. rewrite pretty_N_unfold. case_decide as H0; [cbn; lia|].
  destruct (decide (x < 10)%N) as [Hlt | Hge].
  - rewrite pretty_N_go_small by lia. cbn. lia.
  - rewrite pretty_N_go_step by lia.
    rewrite pretty_N_go_small; [cbn; lia|].
    split; [apply N.div_str_pos; lia|apply N.Div0.div_lt_upper_bound; lia].
Qed.

End JSFacts.

(** ** [formatUptime] *)

Example formatUptime_examples :
  formatUptime 0 = "00h 00m" ∧ formatUptime 59999 = "00h 00m"
  ∧ formatUptime (59 * 60000) = "00h 59m" ∧ formatUptime (60 * 60000) = "01h 00m"
  ∧ formatUptime (100 * 3600000 + 7 * 60000 + 1) = "100h 07m".
Proof. repeat split. Qed.

Example parseInt_examples :
  JS.parseInt None = None ∧ JS.parseInt (Some "1700000000000") = Some 1700000000000
  ∧ JS.parseInt (Some "  -42abc") = Some (-42) ∧ JS.parseInt (Some "") = None
  ∧ JS.parseInt (Some "+7") = Some 7 ∧ JS.parseInt (Some "x1") = None
  ∧ JS.parseInt (Some "2024-01-05") = Some 2024.
Proof. repeat split. Qed.

(** C2.  For every [ms ≥ 0], [formatUptime ms] is [HH ++ "h " ++ MM ++ "m"]
    where [HH] and [MM] are decimal numerals, [HH] of at least two digits and
    [MM] of exactly two, the value of [MM] is below 60, and
    [HH·60 + MM = floor(ms/60000)]; and [formatUptime (125*60000)] is
    ["02h 05m"]. *)
Theorem formatUptime_shape (ms : Z) :
  0 ≤ ms →
  (∃ hh mm : string,
      formatUptime ms = hh +:+ "h " +:+ mm +:+ "m"
      ∧ JS.allDigits hh ∧ JS.allDigits mm
      ∧ (2 ≤ String.length hh)%nat ∧ String.length mm = 2%nat
      ∧ 0 ≤ JS.digits mm 0 < 60
      ∧ JS.digits hh 0 * 60 + JS.digits mm 0 = ms `div` 60000)
  ∧ formatUptime (125 * 60000) = "02h 05m".
Proof.
  intros Hms. split; [|reflexivity].
  unfold formatUptime, JS.floorDiv, JS.remainder.
  set (mins := ms `div` 60000).
  assert (0 ≤ mins) as Hmins by (apply Z.div_pos; lia).
  rewrite Z.rem_mod_nonneg by lia.
  pose proof (Z.mod_pos_bound mins 60 ltac:(lia)) as HM.
  assert (0 ≤ mins `div` 60) as HH by (apply Z.div_pos; lia).
  rewrite !JSFacts.pretty_Z_nonneg by lia.
  eexists _, _. split; [reflexivity|].
  rewrite !JSFacts.digits_padStart0, !JSFacts.digits_pretty_N, !Z2N.id by lia.
  rewrite !JSFacts.length_padStart0.
  pose proof (JSFacts.length_pretty_lt_100 (Z.to_N (mins `mod` 60)) ltac:(lia)).
  repeat split; try lia;
    try (apply JSFacts.allDigits_padStart0, JSFacts.allDigits_pretty_N).
  pose proof (Z.div_mod mins 60). lia.
Qed.

Lemma formatUptime_shape_witness :
  0 ≤ 7500000 ∧ formatUptime 7500000 = "02h 05m".
Proof.
  split; [lia|].
  destruct (formatUptime_shape 7500000 ltac:(lia)) as [_ H]. exact H.
Defined.

(** ** What each handler does to the world *)

Ltac run_handler :=
  cbv [exec startSession endSession tick mountEffect sessionCountEffect
       scenarioWindow applySnapshot readDailyUptime dateNow getItem setItem
       removeItem setHooks setTotalSessions setTotalScenarios setDailyUptime
       setUptimeHistory setSessionActive mbind M_bind fmap M_fmap mret M_ret
       fst snd];
  cbn [clock items journal hooks totalSessions totalScenarios dailyUptime
       uptimeHistory sessionActive].

Lemma dailyKey_inj (d1 d2 : string) : dailyKey d1 = dailyKey d2 → d1 = d2.
Proof. unfold dailyKey. apply String.app_inj. Qed.

Lemma dailyKey_ne_sessionStart (d : string) : dailyKey d ≠ "sessionStart".
Proof. discriminate. Qed.

Lemma dailyKey_ne_sessionActive (d : string) : dailyKey d ≠ "sessionActive".
Proof. discriminate. Qed.

Lemma startSession_exec (c : Closure) (w : World) :
  exec (startSession c) w =
  if c_sessionActive c then w
  else {| clock := clock w;
          items := <["sessionActive" := "true"]>
                     (<["sessionStart" := JS.String_ (clock w)]> (items w));
          journal := journal w ++ [SetItem "sessionStart" (JS.String_ (clock w));
                                   SetItem "sessionActive" "true"];
          hooks := {| totalSessions := totalSessions (hooks w);
                      totalScenarios := totalScenarios (hooks w);
                      dailyUptime := dailyUptime (hooks w);
                      uptimeHistory := uptimeHistory (hooks w);
                      sessionActive := true |} |}.
Proof.
  run_handler. destruct (c_sessionActive c); cbn [negb]; [by destruct w|].
  by rewrite <-app_assoc.
Qed.

Lemma endSession_exec (c : Closure) (w : World) :
  exec (endSession c) w =
  match startMarker w with
  | Some startTs =>
      let total := persistedTotal w (c_todayKey c) + (clock w - startTs) in
      {| clock := clock w;
         items := <["sessionActive" := "false"]>
                    (delete "sessionStart"
                       (<[dailyKey (c_todayKey c) := JS.String_ total]> (items w)));
         journal := journal w ++ [SetItem (dailyKey (c_todayKey c)) (JS.String_ total);
                                  RemoveItem "sessionStart";
                                  SetItem "sessionActive" "false"];
         hooks := {| totalSessions := totalSessions (hooks w);
                     totalScenarios := totalScenarios (hooks w);
                     dailyUptime := total;
                     uptimeHistory := uptimeHistory (hooks w);
                     sessionActive := false |} |}
  | None =>
      {| clock := clock w;
         items := <["sessionActive" := "false"]> (delete "sessionStart" (items w));
         journal := journal w ++ [RemoveItem "sessionStart";
                                  SetItem "sessionActive" "false"];
         hooks := {| totalSessions := totalSessions (hooks w);
                     totalScenarios := totalScenarios (hooks w);
                     dailyUptime := dailyUptime (hooks w);
                     uptimeHistory := uptimeHistory (hooks w);
                     sessionActive := false |} |}
  end.
Proof.
  unfold startMarker, persistedTotal. run_handler.
  destruct (JS.truthyValue _); cbn; by rewrite <-!app_assoc.
Qed.

Lemma mountEffect_exec (c : Closure) (w : World) :
  exec (mountEffect c) w =
  let w' := {| clock := clock w; items := items w; journal := journal w;
               hooks := {| totalSessions := totalSessions (hooks w);
                           totalScenarios := totalScenarios (hooks w);
                           dailyUptime := persistedTotal w (c_todayKey c);
                           uptimeHistory := uptimeHistory (hooks w);
                           sessionActive := storedActive w |} |} in
  if storedActive w then w' else exec (startSession c) w'.
Proof.
  unfold storedActive, persistedTotal. run_handler.
  by destruct (bool_decide _).
Qed.

Lemma sessionCountEffect_exec (w : World) :
  items (exec sessionCountEffect w) = items w
  ∧ journal (exec sessionCountEffect w) = journal w
  ∧ clock (exec sessionCountEffect w) = clock w
  ∧ uptimeHistory (hooks (exec sessionCountEffect w)) = uptimeHistory (hooks w)
  ∧ sessionActive (hooks (exec sessionCountEffect w)) = sessionActive (hooks w)
  ∧ dailyUptime (hooks (exec sessionCountEffect w)) = dailyUptime (hooks w)
  ∧ totalScenarios (hooks (exec sessionCountEffect w)) = totalScenarios (hooks w).
Proof. by run_handler. Qed.

Lemma applySnapshot_exec (window : Z * Z) (docs : list Scenario) (w : World) :
  exec (applySnapshot window docs) w =
  {| clock := clock w; items := items w; journal := journal w;
     hooks := {| totalSessions := totalSessions (hooks w);
                 totalScenarios := length (getDocs window.1 window.2 docs);
                 dailyUptime := dailyUptime (hooks w);
                 uptimeHistory := uptimeHistory (hooks w);
                 sessionActive := sessionActive (hooks w) |} |}.
Proof. by run_handler. Qed.

Section HandlerFacts.

Variable tz : Z.
Variable toLocaleTimeString : Z → string.

Lemma tick_exec (c : Closure) (w : World) :
  exec (tick toLocaleTimeString c) w =
  match (if c_sessionActive c then startMarker w else None) with
  | Some startTs =>
      let total := persistedTotal w (c_todayKey c) + (clock w - startTs) in
      {| clock := clock w;
         items := <[dailyKey (c_todayKey c) := JS.String_ total]> (items w);
         journal := journal w ++ [SetItem (dailyKey (c_todayKey c)) (JS.String_ total)];
         hooks := {| totalSessions := totalSessions (hooks w);
                     totalScenarios := totalScenarios (hooks w);
                     dailyUptime := total;
                     uptimeHistory :=
                       uptimeHistory (hooks w)
                       ++ [{| time := toLocaleTimeString (clock w);
                              uptime := total `div` 60000 |}];
                     sessionActive := sessionActive (hooks w) |} |}
  | None => w
  end.
Proof.
  unfold startMarker, persistedTotal. run_handler.
  destruct (c_sessionActive c); [|by destruct w].
  destruct (JS.truthyValue _); [done|by destruct w].
Qed.

Lemma scenarioWindow_run (w : World) :
  scenarioWindow tz w =
  ((Date.setHours tz 0 0 0 0 (clock w), Date.setHours tz 23 59 59 999 (clock w)), w).
Proof. by run_handler. Qed.

End HandlerFacts.

(** ** The calendar *)

Module DateFacts.
Import Date.

Ltac div_lia := Z.div_mod_to_equations; lia.

Lemma DayFromYear_succ (y : Z) :
  DayFromYear (y + 1) = DayFromYear y + DaysInYear y.
Proof.
  unfold DayFromYear, DaysInYear.
  repeat match goal with
         | |- context [ ?a =? ?b ] => destruct (Z.eqb_spec a b)
         end; cbn [negb]; div_lia.
Qed.

Lemma DaysInYear_cases (y : Z) : DaysInYear y = 365 ∨ DaysInYear y = 366.
Proof. unfold DaysInYear. repeat case_match; auto. Qed.

Lemma DayFromYear_mono (y1 y2 : Z) :
  y1 ≤ y2 → DayFromYear y1 ≤ DayFromYear y2.
Proof. intros Hy. unfold DayFromYear. div_lia. Qed.

(** [YearFromDay] is the year ECMAScript specifies: the last one that
    starts on or before the day. *)
Lemma YearFromDay_spec (d : Z) :
  DayFromYear (YearFromDay d) ≤ d < DayFromYear (YearFromDay d + 1).
Proof.
  unfold YearFromDay. set (y := 1970 + (400 * d) `div` 146097).
  assert (DayFromYear (y - 1) ≤ d) as Hlo.
  { subst y. unfold DayFromYear. div_lia. }
  assert (d < DayFromYear (y + 2)) as Hhi.
  { subst y. unfold DayFromYear. div_lia. }
  destruct (Z.ltb_spec d (DayFromYear y)).
  - replace (y - 1 + 1) with y by lia. lia.
  - destruct (Z.leb_spec (DayFromYear (y + 1)) d).
    + replace (y + 1 + 1) with (y + 2) by lia. lia.
    + lia.
Qed.

Lemma YearFromDay_unique (d y : Z) :
  DayFromYear y ≤ d < DayFromYear (y + 1) → YearFromDay d = y.
Proof.
  intros Hy. pose proof (YearFromDay_spec d) as Hs.
  destruct (Z.lt_trichotomy (YearFromDay d) y) as [Hlt | [Heq | Hgt]]; [|done|].
  - pose proof (DayFromYear_mono (YearFromDay d + 1) y ltac:(lia)). lia.
  - pose proof (DayFromYear_mono (y + 1) (YearFromDay d) ltac:(lia)). lia.
Qed.

Lemma DayWithinYear_bounds (t : Z) :
  0 ≤ DayWithinYear t < DaysInYear (YearFromTime t).
Proof.
  unfold DayWithinYear, YearFromTime.
  pose proof (YearFromDay_spec (Day t)) as Hs.
  rewrite DayFromYear_succ in Hs. lia.
Qed.

Lemma InLeapYear_cases (t : Z) :
  (InLeapYear t = 0 ∧ DaysInYear (YearFromTime t) = 365)
  ∨ (InLeapYear t = 1 ∧ DaysInYear (YearFromTime t) = 366).
Proof.
  unfold InLeapYear. destruct (DaysInYear_cases (YearFromTime t)) as [-> | ->]; auto.
Qed.

Lemma MonthFromTime_bounds (t : Z) : 0 ≤ MonthFromTime t ≤ 11.
Proof. unfold MonthFromTime. cbv zeta. repeat case_match; lia. Qed.

Lemma DateFromTime_bounds (t : Z) : 1 ≤ DateFromTime t ≤ 31.
Proof.
  pose proof (DayWithinYear_bounds t) as Hd.
  unfold DateFromTime, MonthFromTime. cbv zeta.
  destruct (InLeapYear_cases t) as [[-> Hy] | [-> Hy]]; rewrite Hy in Hd;
    repeat match goal with
           | |- context [ ?a <? ?b ] => destruct (Z.ltb_spec a b)
           end; lia.
Qed.

(** The day within the year is the first day of the month plus the date. *)
Lemma DayWithinYear_MonthDate (t : Z) :
  DayWithinYear t =
  DateFromTime t - 1 +
  match MonthFromTime t with
  | 0 => 0
  | 1 => 31
  | 2 => 59 + InLeapYear t
  | 3 => 90 + InLeapYear t
  | 4 => 120 + InLeapYear t
  | 5 => 151 + InLeapYear t
  | 6 => 181 + InLeapYear t
  | 7 => 212 + InLeapYear t
  | 8 => 243 + InLeapYear t
  | 9 => 273 + InLeapYear t
  | 10 => 304 + InLeapYear t
  | _ => 334 + InLeapYear t
  end.
Proof.
  unfold DateFromTime.
  generalize (MonthFromTime t), (DayWithinYear t), (InLeapYear t).
  intros m d l. repeat case_match; lia.
Qed.

(** A calendar date is the date of one day only. *)
Lemma calendar_date_inj (t1 t2 : Z) :
  YearFromTime t1 = YearFromTime t2 →
  MonthFromTime t1 = MonthFromTime t2 →
  DateFromTime t1 = DateFromTime t2 →
  Day t1 = Day t2.
Proof.
  intros Hy Hm Hd.
  assert (DayWithinYear t1 = DayWithinYear t2) as Hw.
  { rewrite (DayWithinYear_MonthDate t1), (DayWithinYear_MonthDate t2).
    unfold InLeapYear. by rewrite Hy, Hm, Hd. }
  unfold DayWithinYear in Hw. rewrite Hy in Hw. lia.
Qed.

End DateFacts.

(** ** ISO dates and the date key *)

Module IsoFacts.
Import JS JSFacts Date DateFacts.

Lemma string_app_cons (c : ascii) (s t : string) :
  String c s +:+ t = String c (s +:+ t).
Proof. reflexivity. Qed.

(** A numeral followed by a character that is not a digit ends there. *)
Lemma allDigits_app_inj (a b : string) (c : ascii) (r r' : string) :
  allDigits a → allDigits b → digit c = None →
  a +:+ String c r = b +:+ String c r' → a = b ∧ r = r'.
Proof.
  intros Ha Hb Hc. revert b Hb.
  induction a as [|x a IH]; intros [|y b] Hb Heq.
  - by injection Heq as ->.
  - rewrite string_app_cons in Heq. injection Heq as -> _.
    destruct Hb as [[? Hy] _]. congruence.
  - rewrite string_app_cons in Heq. injection Heq as <- _.
    destruct Ha as [[? Hx] _]. congruence.
  - rewrite !string_app_cons in Heq. injection Heq as -> Heq.
    destruct Ha as [_ Ha], Hb as [_ Hb].
    destruct (IH Ha b Hb Heq) as [-> ->]. done.
Qed.

Lemma allDigits_numeral (k : nat) (n : Z) :
  0 ≤ n → allDigits (padStart0 k (String_ n)).
Proof.
  intros Hn. rewrite pretty_Z_nonneg by done.
  apply allDigits_padStart0, allDigits_pretty_N.
Qed.

Lemma digits_numeral (k : nat) (n : Z) :
  0 ≤ n → digits (padStart0 k (String_ n)) 0 = n.
Proof.
  intros Hn. rewrite pretty_Z_nonneg by done.
  rewrite digits_padStart0, digits_pretty_N. lia.
Qed.

Lemma numeral_inj (k : nat) (n m : Z) :
  0 ≤ n → 0 ≤ m → padStart0 k (String_ n) = padStart0 k (String_ m) → n = m.
Proof.
  intros Hn Hm Heq.
  rewrite <-(digits_numeral k n), <-(digits_numeral k m) by done.
  by rewrite Heq.
Qed.

Lemma numeral_head (k : nat) (n : Z) :
  0 ≤ n →
  ∃ c r, padStart0 k (String_ n) = String c r ∧ is_Some (digit c).
Proof.
  intros Hn. pose proof (allDigits_numeral k n Hn) as Hd.
  destruct (padStart0 k (String_ n)) as [|c r] eqn:Heq.
  - exfalso. rewrite pretty_Z_nonneg in Heq by done.
    assert (String.length (padStart0 k (pretty (Z.to_N n))) = 0%nat) as Hlen
      by (by rewrite Heq).
    rewrite length_padStart0 in Hlen. rewrite pretty_N_unfold in Hlen.
    case_decide; [cbn in Hlen; lia|].
    destruct (pretty_N_go_head (Z.to_N n) "") as (c & r & Hgo & _); [lia|].
    rewrite Hgo in Hlen. cbn in Hlen. lia.
  - destruct Hd as [Hc _]. eauto.
Qed.

Lemma yearString_cases (y : Z) :
  (0 ≤ y ≤ 9999 ∧ yearString y = padStart0 4 (String_ y))
  ∨ (9999 < y ∧ yearString y = String "+" (padStart0 6 (String_ y)))
  ∨ (y < 0 ∧ yearString y = String "-" (padStart0 6 (String_ (- y)))).
Proof.
  unfold yearString.
  destruct (Z.leb_spec 0 y), (Z.leb_spec y 9999), (Z.ltb_spec 0 y);
    cbn [andb]; try lia; auto.
  - right; left. by rewrite Z.abs_eq by lia.
  - right; right. by rewrite Z.abs_neq by lia.
Qed.

Lemma not_digit_head (c : ascii) (r s : string) (k : nat) (n : Z) :
  0 ≤ n → digit c = None → padStart0 k (String_ n) +:+ s ≠ String c r.
Proof.
  intros Hn Hc Heq. destruct (numeral_head k n Hn) as (x & t & Hx & [d Hd]).
  rewrite Hx, string_app_cons in Heq. injection Heq as -> _. congruence.
Qed.

(** The year can be read back from the front of an ISO date. *)
Lemma yearString_inj (y1 y2 : Z) (r1 r2 : string) :
  yearString y1 +:+ String "-" r1 = yearString y2 +:+ String "-" r2 →
  y1 = y2 ∧ r1 = r2.
Proof.
  assert (∀ k n m, 0 ≤ n → 0 ≤ m →
    padStart0 k (String_ n) +:+ String "-" r1
    = padStart0 k (String_ m) +:+ String "-" r2 → n = m ∧ r1 = r2) as Hnum.
  { intros k n m Hn Hm Heq.
    apply allDigits_app_inj in Heq as [Heq ->];
      [|by apply allDigits_numeral..|done].
    by apply numeral_inj in Heq. }
  destruct (yearString_cases y1) as [[H1 ->] | [[H1 ->] | [H1 ->]]];
    destruct (yearString_cases y2) as [[H2 ->] | [[H2 ->] | [H2 ->]]];
    rewrite ?string_app_cons; intros Heq.
  - apply Hnum in Heq; [done|lia..].
  - by apply not_digit_head in Heq; [|lia|].
  - by apply not_digit_head in Heq; [|lia|].
  - symmetry in Heq. by apply not_digit_head in Heq; [|lia|].
  - injection Heq as Heq. apply Hnum in Heq; [done|lia..].
  - discriminate Heq.
  - symmetry in Heq. by apply not_digit_head in Heq; [|lia|].
  - discriminate Heq.
  - injection Heq as Heq. apply Hnum in Heq as [? ?]; [|lia..]. split; [lia|done].
Qed.

(** Two time values with the same ISO date are on the same day. *)
Lemma isoDate_inj (t1 t2 : Z) : isoDate t1 = isoDate t2 → Day t1 = Day t2.
Proof.
  unfold isoDate. intros Heq.
  pose proof (MonthFromTime_bounds t1). pose proof (MonthFromTime_bounds t2).
  pose proof (DateFromTime_bounds t1). pose proof (DateFromTime_bounds t2).
  apply yearString_inj in Heq as [Hy Heq].
  apply allDigits_app_inj in Heq as [Hm Hd];
    [|by apply allDigits_numeral; lia..|done].
  apply numeral_inj in Hm; [|lia..]. apply numeral_inj in Hd; [|lia..].
  apply calendar_date_inj; [done|lia|done].
Qed.

Lemma avoids_app (sep : ascii) (s t : string) :
  avoids sep s → avoids sep t → avoids sep (s +:+ t).
Proof.
  intros Hs Ht. induction s as [|c s IH]; [done|].
  destruct Hs as [Hc Hs]. rewrite string_app_cons. split; auto.
Qed.

Lemma allDigits_avoids (sep : ascii) (s : string) :
  digit sep = None → allDigits s → avoids sep s.
Proof.
  intros Hsep. induction s as [|c s IH]; [done|].
  intros [[d Hc] Hs]. split; [congruence|auto].
Qed.

Lemma splitHead_app (sep : ascii) (s r : string) :
  avoids sep s → splitHead sep (s +:+ String sep r) = s.
Proof.
  induction s as [|c s IH].
  - intros _. change (splitHead sep (String sep r) = "").
    cbn [splitHead]. by rewrite decide_True.
  - intros [Hc Hs]. rewrite string_app_cons. cbn [splitHead].
    rewrite decide_False by done. by rewrite IH.
Qed.

Lemma isoDate_avoids_T (t : Z) : avoids "T" (isoDate t).
Proof.
  pose proof (MonthFromTime_bounds t). pose proof (DateFromTime_bounds t).
  assert (∀ k n, 0 ≤ n → avoids "T" (padStart0 k (String_ n))) as Hnum.
  { intros k n Hn. by apply allDigits_avoids, allDigits_numeral. }
  unfold isoDate.
  apply avoids_app;
    [|apply (avoids_app _ "-"); [done|];
      apply avoids_app; [apply Hnum; lia|];
      apply (avoids_app _ "-"); [done|apply Hnum; lia]].
  destruct (yearString_cases (YearFromTime t)) as [[? ->] | [[? ->] | [? ->]]].
  - apply Hnum; lia.
  - split; [done|]. apply Hnum; lia.
  - split; [done|]. apply Hnum; lia.
Qed.

(** The date key is the ISO date, in UTC, of the clock reading. *)
Lemma todayKey_isoDate (now : Z) : todayKey now = isoDate now.
Proof.
  unfold todayKey, toISOString. apply splitHead_app, isoDate_avoids_T.
Qed.

Lemma todayKey_inj (t1 t2 : Z) : todayKey t1 = todayKey t2 → Day t1 = Day t2.
Proof. rewrite !todayKey_isoDate. apply isoDate_inj. Qed.

(** The date key depends on the UTC day only. *)
Lemma todayKey_Day (t1 t2 : Z) : Day t1 = Day t2 → todayKey t1 = todayKey t2.
Proof.
  intros Hd. rewrite !todayKey_isoDate.
  unfold isoDate, DateFromTime, MonthFromTime, InLeapYear, DayWithinYear,
    YearFromTime. by rewrite Hd.
Qed.

End IsoFacts.

(** ** The persisted daily total under each handler *)

Lemma startMarker_absent (w : World) :
  items w !! "sessionStart" = None → startMarker w = None.
Proof. unfold startMarker. by intros ->. Qed.

Lemma startMarker_written (m : gmap string string) (t : Z) (w : World) :
  items w = <["sessionActive" := "true"]> (<["sessionStart" := JS.String_ t]> m) →
  startMarker w = if decide (t = 0) then None else Some t.
Proof.
  intros Hw. unfold startMarker. rewrite Hw.
  rewrite lookup_insert_ne by done. rewrite lookup_insert_eq.
  rewrite JSFacts.parseInt_String. unfold JS.truthyValue.
  destruct (Z.eqb_spec t 0); by case_decide.
Qed.

Lemma total_after_write (m : gmap string string) (k day : string) (v : Z) :
  JS.orZero (JS.parseInt (<[dailyKey k := JS.String_ v]> m !! dailyKey day))
  = if decide (day = k) then v else JS.orZero (JS.parseInt (m !! dailyKey day)).
Proof.
  case_decide as Hk.
  - subst. by rewrite lookup_insert_eq, JSFacts.parseInt_String.
  - rewrite lookup_insert_ne; [done|]. by intros ?%dailyKey_inj.
Qed.

Lemma startSession_items_daily (c : Closure) (w : World) (day : string) :
  items (exec (startSession c) w) !! dailyKey day = items w !! dailyKey day.
Proof.
  rewrite startSession_exec. destruct (c_sessionActive c); [done|].
  cbn [items]. by rewrite !lookup_insert_ne.
Qed.

Lemma startSession_total (c : Closure) (w : World) (day : string) :
  persistedTotal (exec (startSession c) w) day = persistedTotal w day.
Proof. unfold persistedTotal. by rewrite startSession_items_daily. Qed.

Lemma endSession_total (c : Closure) (w : World) (day : string) :
  persistedTotal (exec (endSession c) w) day =
  match startMarker w with
  | Some startTs =>
      if decide (day = c_todayKey c)
      then persistedTotal w day + (clock w - startTs)
      else persistedTotal w day
  | None => persistedTotal w day
  end.
Proof.
  rewrite endSession_exec. unfold persistedTotal at 1.
  destruct (startMarker w) as [s|]; cbn [items].
  - rewrite lookup_insert_ne, lookup_delete_ne by done.
    rewrite total_after_write. by case_decide; subst.
  - by rewrite lookup_insert_ne, lookup_delete_ne by done.
Qed.

Lemma endSession_startMarker (c : Closure) (w : World) :
  startMarker (exec (endSession c) w) = None.
Proof.
  apply startMarker_absent. rewrite endSession_exec.
  destruct (startMarker w); cbn [items];
    by rewrite lookup_insert_ne, lookup_delete_eq.
Qed.

Lemma endSession_history (c : Closure) (w : World) :
  uptimeHistory (hooks (exec (endSession c) w)) = uptimeHistory (hooks w).
Proof. rewrite endSession_exec. by destruct (startMarker w). Qed.

Lemma startSession_history (c : Closure) (w : World) :
  uptimeHistory (hooks (exec (startSession c) w)) = uptimeHistory (hooks w).
Proof. rewrite startSession_exec. by destruct (c_sessionActive c). Qed.

Lemma mountEffect_history (c : Closure) (w : World) :
  uptimeHistory (hooks (exec (mountEffect c) w)) = uptimeHistory (hooks w).
Proof.
  rewrite mountEffect_exec. cbv zeta. destruct (storedActive w); [done|].
  by rewrite startSession_history.
Qed.

Lemma mountEffect_total (c : Closure) (w : World) (day : string) :
  persistedTotal (exec (mountEffect c) w) day = persistedTotal w day.
Proof.
  rewrite mountEffect_exec. cbv zeta. destruct (storedActive w); [done|].
  by rewrite startSession_total.
Qed.

Section TickFacts.

Variable toLocaleTimeString : Z → string.

Lemma tick_total (c : Closure) (w : World) (day : string) :
  persistedTotal (exec (tick toLocaleTimeString c) w) day =
  match (if c_sessionActive c then startMarker w else None) with
  | Some startTs =>
      if decide (day = c_todayKey c)
      then persistedTotal w day + (clock w - startTs)
      else persistedTotal w day
  | None => persistedTotal w day
  end.
Proof.
  rewrite tick_exec. unfold persistedTotal at 1.
  destruct (if c_sessionActive c then _ else _) as [s|]; [|done].
  cbn [items]. rewrite total_after_write. by case_decide; subst.
Qed.

Lemma tick_startMarker (c : Closure) (w : World) :
  startMarker (exec (tick toLocaleTimeString c) w) = startMarker w.
Proof.
  rewrite tick_exec.
  destruct (if c_sessionActive c then _ else _) as [s|]; [|done].
  unfold startMarker. cbn [items]. by rewrite lookup_insert_ne.
Qed.

Lemma tick_history (c : Closure) (w : World) :
  uptimeHistory (hooks (exec (tick toLocaleTimeString c) w)) =
  uptimeHistory (hooks w) ++
  match (if c_sessionActive c then startMarker w else None) with
  | Some _ =>
      [{| time := toLocaleTimeString (clock w);
          uptime := persistedTotal (exec (tick toLocaleTimeString c) w)
                      (c_todayKey c) `div` 60000 |}]
  | None => []
  end.
Proof.
  rewrite tick_total. rewrite tick_exec.
  destruct (if c_sessionActive c then _ else _) as [s|];
    [|by rewrite app_nil_r].
  cbn [hooks uptimeHistory]. by rewrite decide_True.
Qed.

End TickFacts.

(** ** Counting writes in the journal *)

Lemma writesOf_app (k : string) (j1 j2 : list StorageOp) :
  writesOf k (j1 ++ j2) = (writesOf k j1 + writesOf k j2)%nat.
Proof. unfold writesOf. by rewrite filter_app, length_app. Qed.

Lemma writesOf_cons (k : string) (op : StorageOp) (j : list StorageOp) :
  writesOf k (op :: j) = ((if setsKey k op then 1 else 0) + writesOf k j)%nat.
Proof.
  unfold writesOf. rewrite filter_cons.
  destruct (setsKey k op); by case_decide.
Qed.

Lemma writesOf_nil (k : string) : writesOf k [] = 0%nat.
Proof. reflexivity. Qed.

(** ** Events *)

Lemma persistedTotal_setClock (now : Z) (w : World) (day : string) :
  persistedTotal (setClock now w) day = persistedTotal w day.
Proof. reflexivity. Qed.

Lemma startMarker_setClock (now : Z) (w : World) :
  startMarker (setClock now w) = startMarker w.
Proof. reflexivity. Qed.

Lemma rerender_firstRender (before : Hooks) (i : Instance) (w : World) :
  firstRender (rerender before i w) = firstRender i.
Proof. unfold rerender. by case_decide. Qed.

Lemma rerender_pendingQuery (before : Hooks) (i : Instance) (w : World) :
  pendingQuery (rerender before i w) = pendingQuery i.
Proof. unfold rerender. by case_decide. Qed.

(** The interval keeps its closure as long as [sessionActive] keeps the
    value the closure captured. *)
Lemma rerender_intervalRender (before : Hooks) (i : Instance) (w : World) :
  sessionActive (hooks w) = c_sessionActive (intervalRender i) →
  intervalRender (rerender before i w) = intervalRender i.
Proof.
  intros Hs. unfold rerender. case_decide; [done|].
  cbn. by rewrite decide_True.
Qed.

(** The window of the scenario query is the local calendar day of the
    clock reading. *)
Lemma window_is_local_day (tz now t : Z) :
  Date.setHours tz 0 0 0 0 now ≤ t ≤ Date.setHours tz 23 59 59 999 now
  ↔ Date.Day (Date.LocalTime tz t) = Date.Day (Date.LocalTime tz now).
Proof.
  unfold Date.setHours, Date.UTC, Date.MakeDate, Date.MakeTime, Date.Day,
    Date.LocalTime, Date.msPerDay, Date.msPerHour, Date.msPerMinute,
    Date.msPerSecond.
  split; intros H; DateFacts.div_lia.
Qed.

Section Events.

Variable tz : Z.
Variable toLocaleTimeString : Z → string.

Abbreviation step' := (step tz toLocaleTimeString).

Lemma mount_world (w : World) :
  world (mount tz w) =
  exec sessionCountEffect
    (exec (mountEffect {| c_sessionActive := false;
                          c_todayKey := todayKey (clock w) |})
       (resetHooks w)).
Proof. unfold mount. by rewrite scenarioWindow_run. Qed.

Lemma mount_sessionActive (w : World) :
  sessionActive (hooks (world (mount tz w))) = true.
Proof.
  rewrite mount_world.
  destruct (sessionCountEffect_exec
    (exec (mountEffect {| c_sessionActive := false;
                          c_todayKey := todayKey (clock w) |})
       (resetHooks w))) as (_ & _ & _ & _ & -> & _).
  rewrite mountEffect_exec. cbv zeta.
  destruct (storedActive (resetHooks w)) eqn:Ha; [done|].
  by rewrite startSession_exec.
Qed.

Lemma mount_clock (w : World) : clock (world (mount tz w)) = clock w.
Proof.
  rewrite mount_world.
  destruct (sessionCountEffect_exec
    (exec (mountEffect {| c_sessionActive := false;
                          c_todayKey := todayKey (clock w) |})
       (resetHooks w))) as (_ & _ & -> & _).
  rewrite mountEffect_exec. cbv zeta.
  destruct (storedActive (resetHooks w)); [done|].
  by rewrite startSession_exec.
Qed.

(** The instance right after mounting: the first render saw
    [sessionActive = false]; the render that follows the effects sees
    [true], so the interval is created again with that closure. *)
Lemma mount_inst (w : World) :
  inst (mount tz w) =
  Some {| firstRender := {| c_sessionActive := false;
                            c_todayKey := todayKey (clock w) |};
          intervalRender := {| c_sessionActive := true;
                               c_todayKey := todayKey (clock w) |};
          lastRender := {| c_sessionActive := true;
                           c_todayKey := todayKey (clock w) |};
          pendingQuery := Some (Date.setHours tz 0 0 0 0 (clock w),
                                Date.setHours tz 23 59 59 999 (clock w)) |}.
Proof.
  pose proof (mount_sessionActive w) as Hs. pose proof (mount_clock w) as Hc.
  rewrite mount_world in Hs, Hc. unfold mount.
  rewrite scenarioWindow_run. cbn [inst].
  set (w3 := exec sessionCountEffect _) in *.
  f_equal. unfold rerender. rewrite decide_False; last first.
  { intros Heq. by rewrite Heq in Hs. }
  cbn. rewrite Hs, Hc. cbn. by rewrite decide_False.
Qed.

Lemma mount_items (w : World) :
  items (world (mount tz w)) =
  if storedActive w then items w
  else <["sessionActive" := "true"]>
         (<["sessionStart" := JS.String_ (clock w)]> (items w)).
Proof.
  rewrite mount_world.
  destruct (sessionCountEffect_exec
    (exec (mountEffect {| c_sessionActive := false;
                          c_todayKey := todayKey (clock w) |})
       (resetHooks w))) as (-> & _).
  rewrite mountEffect_exec. cbv zeta.
  change (storedActive (resetHooks w)) with (storedActive w).
  destruct (storedActive w); [done|]. by rewrite startSession_exec.
Qed.

Lemma mount_journal (w : World) :
  journal (world (mount tz w)) =
  if storedActive w then journal w
  else journal w ++ [SetItem "sessionStart" (JS.String_ (clock w));
                     SetItem "sessionActive" "true"].
Proof.
  rewrite mount_world.
  destruct (sessionCountEffect_exec
    (exec (mountEffect {| c_sessionActive := false;
                          c_todayKey := todayKey (clock w) |})
       (resetHooks w))) as (_ & -> & _).
  rewrite mountEffect_exec. cbv zeta.
  change (storedActive (resetHooks w)) with (storedActive w).
  destruct (storedActive w); [done|]. by rewrite startSession_exec.
Qed.

Lemma mount_history (w : World) :
  uptimeHistory (hooks (world (mount tz w))) = [].
Proof.
  rewrite mount_world.
  destruct (sessionCountEffect_exec
    (exec (mountEffect {| c_sessionActive := false;
                          c_todayKey := todayKey (clock w) |})
       (resetHooks w))) as (_ & _ & _ & -> & _).
  by rewrite mountEffect_history.
Qed.

Lemma mount_total (w : World) (day : string) :
  persistedTotal (world (mount tz w)) day = persistedTotal w day.
Proof.
  unfold persistedTotal. rewrite mount_items.
  destruct (storedActive w); [done|]. by rewrite !lookup_insert_ne.
Qed.

Lemma step_mount (now : Z) (w : World) :
  step' now Mount (unmounted w) = mount tz (setClock now w).
Proof. reflexivity. Qed.

Lemma step_unmount (now : Z) (p : Page) (i : Instance) :
  inst p = Some i →
  step' now Unmount p =
  {| world := exec (endSession (firstRender i)) (setClock now (world p));
     inst := None |}.
Proof. intros Hi. unfold step. by rewrite Hi. Qed.

Lemma step_tick (now : Z) (p : Page) (i : Instance) :
  inst p = Some i →
  step' now Tick p =
  handle i (tick toLocaleTimeString (intervalRender i)) (setClock now (world p)).
Proof. intros Hi. unfold step. by rewrite Hi. Qed.

Lemma step_snapshot (now : Z) (p : Page) (i : Instance) (window : Z * Z)
    (docs : list Scenario) :
  inst p = Some i → pendingQuery i = Some window →
  world (step' now (Snapshot docs) p) =
  exec (applySnapshot window docs) (setClock now (world p)).
Proof. intros Hi Hq. unfold step. by rewrite Hi, Hq. Qed.

End Events.

(** * The claims *)

Section Claims.

Variable tz : Z.
Variable toLocaleTimeString : Z → string.

(** C3.  When the start marker is absent, or does not parse to a truthy
    integer, [endSession] leaves every persisted daily total as it is, writes
    nothing but the removal of the marker and the flag ["false"], and sets the
    active state to false; a tick changes nothing at all: no write, no history
    entry.  Both are total functions: there is no error to raise. *)
Theorem missing_start_marker_skips_accrual (c : Closure) (w : World) :
  items w !! "sessionStart" = None
  ∨ JS.truthyValue (JS.parseInt (items w !! "sessionStart")) = None →
  let w' := exec (endSession c) w in
  (∀ day, items w' !! dailyKey day = items w !! dailyKey day)
  ∧ journal w' = journal w ++ [RemoveItem "sessionStart";
                               SetItem "sessionActive" "false"]
  ∧ items w' !! "sessionStart" = None
  ∧ items w' !! "sessionActive" = Some "false"
  ∧ sessionActive (hooks w') = false
  ∧ dailyUptime (hooks w') = dailyUptime (hooks w)
  ∧ exec (tick toLocaleTimeString c) w = w.
Proof.
  intros Hm.
  assert (startMarker w = None) as Hs.
  { destruct Hm as [Hm | Hm]; [by apply startMarker_absent|done]. }
  cbv zeta. rewrite endSession_exec, tick_exec, Hs. cbn.
  repeat split.
  - intros day. by rewrite lookup_insert_ne, lookup_delete_ne.
  - by rewrite lookup_insert_ne, lookup_delete_eq.
  - by rewrite lookup_insert_eq.
  - by destruct (c_sessionActive c).
Qed.

(** The guard of [startSession] seen from the next render: a first call,
    made from a render in which the session is not active, writes the start
    marker once; a call made from the render that follows (in which
    [sessionActive] is true) changes neither the storage nor the state.  In
    general [startSession] does nothing when the [sessionActive] its closure
    captured is true. *)
Lemma startSession_next_render_noop (c : Closure) (w : World) :
  c_sessionActive c = false →
  let w1 := exec (startSession c) w in
  let c' := (render w1).1 in
  let w2 := exec (startSession c') w1 in
  journal w1 = journal w ++ [SetItem "sessionStart" (JS.String_ (clock w));
                             SetItem "sessionActive" "true"]
  ∧ w2 = w1
  ∧ writesOf "sessionStart" (journal w2) = S (writesOf "sessionStart" (journal w))
  ∧ (∀ (a : Closure) (v : World),
        c_sessionActive a = true → exec (startSession a) v = v).
Proof.
  intros Hc. cbv zeta.
  assert (∀ (a : Closure) (v : World),
            c_sessionActive a = true → exec (startSession a) v = v) as Hnoop.
  { intros a v Ha. by rewrite startSession_exec, Ha. }
  assert (c_sessionActive (render (exec (startSession c) w)).1 = true) as Hact.
  { by rewrite startSession_exec, Hc. }
  rewrite (Hnoop _ _ Hact). rewrite startSession_exec, Hc. cbn [journal].
  repeat split; [|done].
  rewrite writesOf_app, !writesOf_cons, writesOf_nil.
  change (setsKey "sessionStart" (SetItem "sessionStart" _)) with true.
  change (setsKey "sessionStart" (SetItem "sessionActive" _)) with false.
  cbv iota. lia.
Qed.

(** C5.  Provided the clock is not earlier than the recorded start marker,
    no event (mounting, which calls [startSession]; a tick; [endSession]
    from the button, from [beforeunload] or from unmounting; the arrival of
    the scenario snapshot) decreases the persisted total of any day, the
    current one included; and the total of a day grows only by a tick or an
    [endSession] while a start marker is recorded.  The same holds of
    [startSession], [endSession] and the tick taken alone, for any closure. *)
Theorem daily_total_never_decreases
    (now : Z) (e : Event) (p : Page) (day : string) :
  (∀ startTs, startMarker (world p) = Some startTs → startTs ≤ now) →
  let p' := step tz toLocaleTimeString now e p in
  let w := setClock now (world p) in
  (persistedTotal (world p) day ≤ persistedTotal (world p') day
   ∧ (persistedTotal (world p) day < persistedTotal (world p') day →
        (e = Tick ∨ e = ClickEndSession ∨ e = BeforeUnload ∨ e = Unmount)
        ∧ is_Some (startMarker (world p))))
  ∧ (∀ c, persistedTotal (exec (startSession c) w) day = persistedTotal w day)
  ∧ (∀ c, persistedTotal w day ≤ persistedTotal (exec (endSession c) w) day)
  ∧ (∀ c, persistedTotal w day
          ≤ persistedTotal (exec (tick toLocaleTimeString c) w) day).
Proof.
  intros Hclock. cbv zeta.
  assert (∀ c, persistedTotal (world p) day
               ≤ persistedTotal (exec (endSession c) (setClock now (world p))) day
             ∧ (persistedTotal (world p) day
                < persistedTotal (exec (endSession c) (setClock now (world p))) day
                → is_Some (startMarker (world p)))) as Hend.
  { intros c. rewrite endSession_total, startMarker_setClock, persistedTotal_setClock.
    destruct (startMarker (world p)) as [s|] eqn:Hs; [|lia].
    specialize (Hclock s eq_refl). cbn [clock setClock].
    case_decide; split; eauto; lia. }
  assert (∀ c, persistedTotal (world p) day
               ≤ persistedTotal
                   (exec (tick toLocaleTimeString c) (setClock now (world p))) day
             ∧ (persistedTotal (world p) day
                < persistedTotal
                    (exec (tick toLocaleTimeString c) (setClock now (world p))) day
                → is_Some (startMarker (world p)))) as Htick.
  { intros c. rewrite tick_total, startMarker_setClock, persistedTotal_setClock.
    destruct (c_sessionActive c); [|lia].
    destruct (startMarker (world p)) as [s|] eqn:Hs; [|lia].
    specialize (Hclock s eq_refl). cbn [clock setClock].
    case_decide; split; eauto; lia. }
  split; [|split; [|split]].
  - unfold step. destruct (inst p) as [i|], e; cbn [handle world];
      try (split; lia);
      try (destruct (Hend (lastRender i)); split; [lia|]; intros; split; auto; tauto);
      try (destruct (Hend (firstRender i)); split; [lia|]; intros; split; auto; tauto).
    + destruct (Htick (intervalRender i)).
      split; [lia|]. intros; split; auto.
    + destruct (pendingQuery i); cbn [handle world]; [|split; lia].
      rewrite applySnapshot_exec. unfold persistedTotal. cbn. split; lia.
    + rewrite mount_total, persistedTotal_setClock. split; lia.
  - intros c. apply startSession_total.
  - intros c. rewrite persistedTotal_setClock. apply Hend.
  - intros c. rewrite persistedTotal_setClock. apply Htick.
Qed.

(** C9.  On a mounted component every event leaves the entries the Uptime
    History already holds in place and in order: the history afterwards is
    the history before followed by nothing or, for a tick that accrues, by
    exactly one entry, made of the display time of the clock and of the
    persisted total in whole minutes. *)
Theorem uptimeHistory_append_only (now : Z) (e : Event) (p : Page) (i : Instance) :
  inst p = Some i →
  let p' := step tz toLocaleTimeString now e p in
  ∃ suffix : list Entry,
    uptimeHistory (hooks (world p')) = uptimeHistory (hooks (world p)) ++ suffix
    ∧ (suffix = []
       ∨ (e = Tick
          ∧ suffix = [{| time := toLocaleTimeString now;
                         uptime := persistedTotal (world p')
                                     (c_todayKey (intervalRender i)) `div` 60000 |}])).
Proof.
  intros Hi. cbv zeta. unfold step. rewrite Hi.
  destruct e; cbn [handle world].
  - exists []. by rewrite app_nil_r; auto.
  - eexists. split; [rewrite tick_history; reflexivity|].
    destruct (if c_sessionActive _ then _ else _); auto.
  - exists []. rewrite endSession_history, app_nil_r. auto.
  - exists []. rewrite endSession_history, app_nil_r. auto.
  - exists []. rewrite app_nil_r. split; [|auto].
    destruct (pendingQuery i); cbn [handle world]; [|done].
    by rewrite applySnapshot_exec.
  - exists []. rewrite endSession_history, app_nil_r. auto.
Qed.

(** What [n] consecutive ticks do: each adds the whole time since the
    start marker, which it leaves where it is, so the persisted total grows
    by 60000·(1 + 2 + … + n) ms, and one history entry is appended per
    tick. *)
Lemma ticks_accumulate (n : nat) (p : Page) (i : Instance) (startTs : Z) :
  inst p = Some i →
  c_sessionActive (intervalRender i) = true →
  sessionActive (hooks (world p)) = true →
  startMarker (world p) = Some startTs →
  let day := c_todayKey (intervalRender i) in
  let p' := run tz toLocaleTimeString (tickEvents startTs n) p in
  persistedTotal (world p') day
  = persistedTotal (world p) day + 30000 * Z.of_nat n * (Z.of_nat n + 1)
  ∧ length (uptimeHistory (hooks (world p')))
    = (length (uptimeHistory (hooks (world p))) + n)%nat
  ∧ startMarker (world p') = Some startTs
  ∧ sessionActive (hooks (world p')) = true
  ∧ ∃ i', inst p' = Some i' ∧ intervalRender i' = intervalRender i.
Proof.
  intros Hi Hc Ha Hs. cbv zeta. induction n as [|n IH].
  - cbn. repeat split; try done; try lia. eauto.
  - unfold tickEvents, run in *. rewrite seq_S, fmap_app, foldl_app.
    destruct IH as (Ht & Hl & Hs' & Ha' & i' & Hi' & Hr').
    set (q := foldl _ p _) in *. cbn [fmap list_fmap foldl fst snd].
    rewrite (step_tick _ _ _ _ _ Hi'). cbn [handle world inst].
    rewrite tick_total, tick_startMarker, startMarker_setClock.
    rewrite Hr', Hc, Hs'. rewrite decide_True by done.
    rewrite persistedTotal_setClock, Ht. cbn [clock setClock].
    rewrite tick_exec, Hc, startMarker_setClock, Hs'.
    cbn [hooks uptimeHistory sessionActive setClock].
    rewrite length_app. cbn [length].
    repeat split; try done; try lia.
    eexists. split; [done|].
    rewrite rerender_intervalRender; [done|]. cbn. by rewrite Hr', Hc.
Qed.

(** The guard of [startSession] reads the state its closure captured, not
    the storage: called again from a closure that still holds
    [sessionActive = false], it writes the marker again. *)
Lemma startSession_guard_reads_closure (c : Closure) (w : World) :
  c_sessionActive c = false →
  journal (exec (startSession c) (exec (startSession c) w))
  = journal w ++ [SetItem "sessionStart" (JS.String_ (clock w));
                  SetItem "sessionActive" "true";
                  SetItem "sessionStart" (JS.String_ (clock w));
                  SetItem "sessionActive" "true"].
Proof.
  intros Hc. rewrite !startSession_exec, Hc. cbn [journal clock].
  by rewrite <-app_assoc.
Qed.

(** Whatever the clock reads, a tick writes under the key of the date its
    closure captured, if it writes at all. *)
Lemma tick_key_is_captured (now : Z) (p : Page) (i : Instance) :
  inst p = Some i →
  ∃ ops : list StorageOp,
    journal (world (step tz toLocaleTimeString now Tick p))
    = journal (world p) ++ ops
    ∧ ∀ k v, SetItem k v ∈ ops → k = dailyKey (c_todayKey (intervalRender i)).
Proof.
  intros Hi. rewrite (step_tick _ _ _ _ _ Hi). cbn [handle world].
  rewrite tick_exec.
  destruct (if c_sessionActive _ then _ else _) as [s|].
  - eexists. split; [reflexivity|].
    intros k v Hin. apply list_elem_of_singleton in Hin. by injection Hin.
  - exists []. split; [by rewrite app_nil_r|]. intros k v Hin. inversion Hin.
Qed.

(** C6.  Mounting on a storage that records no active session and
    unmounting before any tick writes the start marker once, finalizes the
    session once, and changes the persisted total of the day of the mount by
    the time between the two events (the clock of the mount not being the
    epoch itself, whose marker ["0"] is falsy); the total of no other day
    changes. *)
Theorem mount_then_unmount (w : World) (t0 t1 : Z) :
  storedActive w = false →
  t0 ≠ 0 →
  let p := run tz toLocaleTimeString [(t0, Mount); (t1, Unmount)] (unmounted w) in
  let day := todayKey t0 in
  journal (world p)
  = journal w ++ [SetItem "sessionStart" (JS.String_ t0);
                  SetItem "sessionActive" "true";
                  SetItem (dailyKey day)
                    (JS.String_ (persistedTotal w day + (t1 - t0)));
                  RemoveItem "sessionStart";
                  SetItem "sessionActive" "false"]
  ∧ writesOf "sessionStart" (journal (world p))
    = S (writesOf "sessionStart" (journal w))
  ∧ persistedTotal (world p) day = persistedTotal w day + (t1 - t0)
  ∧ (∀ other, other ≠ day → persistedTotal (world p) other = persistedTotal w other)
  ∧ inst p = None.
Proof.
  intros Hact Ht0. cbv zeta. unfold run. cbn [foldl fst snd].
  rewrite step_mount, (step_unmount _ _ _ _ _ (mount_inst tz _)).
  cbn [firstRender world inst clock setClock].
  set (m := mount tz (setClock t0 w)).
  assert (startMarker (setClock t1 (world m)) = Some t0) as Hs.
  { rewrite (startMarker_written (items w) t0).
    - by rewrite decide_False.
    - subst m. cbn [items setClock]. rewrite mount_items.
      change (storedActive (setClock t0 w)) with (storedActive w).
      by rewrite Hact. }
  assert (∀ d, persistedTotal (setClock t1 (world m)) d = persistedTotal w d) as Hp.
  { intros d. subst m. by rewrite persistedTotal_setClock, mount_total. }
  assert (journal (world m)
          = journal w ++ [SetItem "sessionStart" (JS.String_ t0);
                          SetItem "sessionActive" "true"]) as Hj.
  { subst m. rewrite mount_journal.
    change (storedActive (setClock t0 w)) with (storedActive w).
    by rewrite Hact. }
  assert (journal (exec (endSession {| c_sessionActive := false;
                                       c_todayKey := todayKey t0 |})
                     (setClock t1 (world m)))
          = journal w ++ [SetItem "sessionStart" (JS.String_ t0);
                  SetItem "sessionActive" "true";
                  SetItem (dailyKey (todayKey t0))
                    (JS.String_ (persistedTotal w (todayKey t0) + (t1 - t0)));
                  RemoveItem "sessionStart";
                  SetItem "sessionActive" "false"]) as Hj'.
  { rewrite endSession_exec, Hs. cbn [journal c_todayKey clock setClock].
    rewrite Hp. change (journal (setClock t1 (world m))) with (journal (world m)).
    rewrite Hj. by rewrite <-app_assoc. }
  split; [done|]. split.
  { rewrite Hj', writesOf_app, !writesOf_cons, writesOf_nil.
    change (setsKey "sessionStart" (SetItem "sessionStart" _)) with true.
    change (setsKey "sessionStart" (SetItem "sessionActive" _)) with false.
    change (setsKey "sessionStart" (RemoveItem _)) with false.
    change (setsKey "sessionStart" (SetItem (dailyKey ?d) _)) with false.
    cbv iota. lia. }
  split; [|split; [|done]].
  - rewrite endSession_total, Hs, Hp. cbn [c_todayKey clock setClock].
    by rewrite decide_True.
  - intros other Hne. rewrite endSession_total, Hs, Hp. cbn [c_todayKey].
    by rewrite decide_False.
Qed.

(** C7.  With the remote collection a list of records, each with a date,
    the count displayed once the snapshot of the query issued at mount
    arrives is the number of records dated within the local calendar day of
    the mount, from 00:00:00.000 to 23:59:59.999 inclusive: the records
    counted are exactly those whose local date is that day, so the count is
    the number of records when all are, and 0 when none is. *)
Theorem scenario_count_is_local_day_count
    (w : World) (now later : Z) (docs : list Scenario) :
  let p := run tz toLocaleTimeString
             [(now, Mount); (later, Snapshot docs)] (unmounted w) in
  let inWindow := λ d, startOfLocalDay tz now ≤ date d ≤ endOfLocalDay tz now in
  totalScenarios (hooks (world p)) = spec_scenarioCount tz now docs
  ∧ Date.TimeWithinDay (Date.LocalTime tz (startOfLocalDay tz now)) = 0
  ∧ Date.TimeWithinDay (Date.LocalTime tz (endOfLocalDay tz now))
    = Date.MakeTime 23 59 59 999
  ∧ (∀ d, inWindow d ↔
          Date.Day (Date.LocalTime tz (date d)) = Date.Day (Date.LocalTime tz now))
  ∧ (Forall inWindow docs → totalScenarios (hooks (world p)) = length docs)
  ∧ (Forall (λ d, ¬ inWindow d) docs → totalScenarios (hooks (world p)) = 0%nat).
Proof.
  cbv zeta. unfold run. cbn [foldl fst snd].
  rewrite step_mount.
  rewrite (step_snapshot _ _ _ _ _ _ _ (mount_inst tz _) eq_refl).
  rewrite applySnapshot_exec. cbn [hooks totalScenarios fst snd clock setClock].
  assert (getDocs (Date.setHours tz 0 0 0 0 now)
            (Date.setHours tz 23 59 59 999 now) docs
          = filter (λ d, startOfLocalDay tz now ≤ date d ≤ endOfLocalDay tz now) docs)
    as ->.
  { unfold getDocs. apply list_filter_iff. intros d.
    unfold endOfLocalDay, startOfLocalDay, Date.setHours, Date.UTC,
      Date.MakeDate, Date.MakeTime, Date.msPerDay, Date.msPerHour,
      Date.msPerMinute, Date.msPerSecond. lia. }
  split; [done|]. split; [|split; [|split; [|split]]].
  - unfold startOfLocalDay, Date.TimeWithinDay, Date.UTC, Date.LocalTime,
      Date.Day, Date.msPerDay. DateFacts.div_lia.
  - unfold endOfLocalDay, startOfLocalDay, Date.TimeWithinDay, Date.UTC,
      Date.LocalTime, Date.Day, Date.MakeTime, Date.msPerDay, Date.msPerHour,
      Date.msPerMinute, Date.msPerSecond. DateFacts.div_lia.
  - intros d. rewrite <-window_is_local_day.
    unfold endOfLocalDay, startOfLocalDay, Date.setHours, Date.UTC,
      Date.MakeDate, Date.MakeTime, Date.msPerDay, Date.msPerHour,
      Date.msPerMinute, Date.msPerSecond. lia.
  - intros Hall. induction Hall as [|d l Hd _ IH]; [done|].
    rewrite filter_cons_True by done. cbn. by rewrite IH.
  - intros Hnone. induction Hnone as [|d l Hd _ IH]; [done|].
    by rewrite filter_cons_False.
Qed.

(** C10.  The uptime key is the ISO date of the clock reading in UTC and
    depends on the UTC day only, whereas the scenario window is the local
    calendar day of the clock reading; at an instant whose local day is not
    its UTC day, no instant of the scenario window has, as its local date,
    the date of the uptime key: key and window are about two different
    calendar days. *)
Theorem key_day_differs_from_window_day (now : Z) (w : World) :
  Date.Day (Date.LocalTime tz now) ≠ Date.Day now →
  let window := (scenarioWindow tz (setClock now w)).1 in
  let key := c_todayKey (render (setClock now w)).1 in
  key = Date.isoDate now
  ∧ (∀ t, Date.Day t = Date.Day now → todayKey t = key)
  ∧ (∀ t, window.1 ≤ t ≤ window.2 ↔
          Date.Day (Date.LocalTime tz t) = Date.Day (Date.LocalTime tz now))
  ∧ (∀ t, window.1 ≤ t ≤ window.2 →
          Date.isoDate (Date.LocalTime tz t) ≠ key).
Proof.
  intros Hdiff. cbv zeta. rewrite scenarioWindow_run.
  cbn [render fst snd c_todayKey clock setClock].
  split; [apply IsoFacts.todayKey_isoDate|].
  split; [intros t; apply IsoFacts.todayKey_Day|].
  split; [apply window_is_local_day|].
  intros t Ht%window_is_local_day Heq.
  rewrite IsoFacts.todayKey_isoDate in Heq.
  apply IsoFacts.isoDate_inj in Heq. congruence.
Qed.

End Claims.

(** * The claims on concrete runs *)

(** C1.  The code at the input where it departs from the claim: mounted at
    10:00:00 on an empty storage and ticked at 10:01:00 and 10:02:00, the
    component has persisted 180000 ms, not 2 × 60000 ms: the second tick adds
    the two minutes since the start marker, which the first tick left in
    place, to a total that already holds the first minute.  Two entries are
    appended, of 1 and 3 minutes, the whole minutes of the totals then
    persisted. *)
Theorem two_ticks_count_the_first_minute_twice :
  let p := run 0 (hhmmss 0) ((morning, Mount) :: tickEvents morning 2)
             (unmounted emptyWorld) in
  persistedTotal (world (mountedAt morning)) "2024-01-01" = 0
  ∧ persistedTotal (world p) "2024-01-01" = 180000
  ∧ journal (world p)
    = [SetItem "sessionStart" "1704103200000"; SetItem "sessionActive" "true";
       SetItem "dailyUptime_2024-01-01" "60000";
       SetItem "dailyUptime_2024-01-01" "180000"]
  ∧ uptimeHistory (hooks (world p))
    = [{| time := "10:01:00"; uptime := 1 |}; {| time := "10:02:00"; uptime := 3 |}]
  ∧ items (world p) !! "sessionStart" = Some "1704103200000".
Proof. vm_compute. repeat split. Qed.

(** C8.  The code at the input where it departs from the claim: mounted at
    23:59:30 UTC on 2024-01-01 and ticked at 00:00:30 on 2024-01-02, the
    component writes the accrued minute under the key of 2024-01-01, the date
    captured by the closure of the interval, and nothing under the key of
    the day of the write; unmounting at 00:00:10 instead does the same with
    the closure of the first render. *)
Theorem tick_after_midnight_writes_old_key :
  let p := run 0 (hhmmss 0) [(beforeMidnight, Mount); (beforeMidnight + 60000, Tick)]
             (unmounted emptyWorld) in
  let q := run 0 (hhmmss 0) [(beforeMidnight, Mount); (beforeMidnight + 40000, Unmount)]
             (unmounted emptyWorld) in
  todayKey beforeMidnight = "2024-01-01"
  ∧ todayKey (beforeMidnight + 60000) = "2024-01-02"
  ∧ todayKey (beforeMidnight + 40000) = "2024-01-02"
  ∧ journal (world p)
    = [SetItem "sessionStart" "1704153570000"; SetItem "sessionActive" "true";
       SetItem "dailyUptime_2024-01-01" "60000"]
  ∧ items (world p) !! dailyKey (todayKey (beforeMidnight + 60000)) = None
  ∧ journal (world q)
    = [SetItem "sessionStart" "1704153570000"; SetItem "sessionActive" "true";
       SetItem "dailyUptime_2024-01-01" "40000"; RemoveItem "sessionStart";
       SetItem "sessionActive" "false"]
  ∧ items (world q) !! dailyKey (todayKey (beforeMidnight + 40000)) = None.
Proof. vm_compute. repeat split. Qed.


Lemma missing_start_marker_witness :
  JS.truthyValue (JS.parseInt (items garbledWorld !! "sessionStart")) = None
  ∧ items (exec (endSession {| c_sessionActive := true;
                               c_todayKey := "2024-01-01" |}) garbledWorld)
      !! "dailyUptime_2024-01-01" = Some "4200"
  ∧ exec (tick (hhmmss 0) {| c_sessionActive := true;
                             c_todayKey := "2024-01-01" |}) garbledWorld
    = garbledWorld.
Proof.
  split; [reflexivity|].
  pose proof (missing_start_marker_skips_accrual (hhmmss 0)
                {| c_sessionActive := true; c_todayKey := "2024-01-01" |}
                garbledWorld (or_intror eq_refl)) as H.
  cbv zeta in H. destruct H as (Hdaily & _ & _ & _ & _ & _ & Htick).
  split; [|exact Htick].
  exact (eq_trans (Hdaily "2024-01-01") eq_refl).
Defined.

Lemma daily_total_witness :
  (∀ startTs, startMarker (world (mountedAt morning)) = Some startTs →
              startTs ≤ morning + 60000)
  ∧ persistedTotal (world (mountedAt morning)) "2024-01-01"
    ≤ persistedTotal
        (world (step 0 (hhmmss 0) (morning + 60000) Tick (mountedAt morning)))
        "2024-01-01".
Proof.
  assert (∀ startTs, startMarker (world (mountedAt morning)) = Some startTs →
                     startTs ≤ morning + 60000) as Hclock.
  { intros startTs Hs. vm_compute in Hs. injection Hs as <-. vm_compute.
    discriminate. }
  split; [exact Hclock|].
  pose proof (daily_total_never_decreases 0 (hhmmss 0) (morning + 60000) Tick
                (mountedAt morning) "2024-01-01" Hclock) as H.
  cbv zeta in H. destruct H as ((Hle & _) & _). exact Hle.
Defined.

Lemma mount_then_unmount_witness :
  storedActive emptyWorld = false ∧ morning ≠ 0
  ∧ persistedTotal
      (world (run 0 (hhmmss 0) [(morning, Mount); (morning + 500, Unmount)]
                (unmounted emptyWorld)))
      (todayKey morning)
    = persistedTotal emptyWorld (todayKey morning) + (morning + 500 - morning).
Proof.
  assert (morning ≠ 0) as Hne by (vm_compute; discriminate).
  split; [reflexivity|]. split; [exact Hne|].
  pose proof (mount_then_unmount 0 (hhmmss 0) emptyWorld morning (morning + 500)
                eq_refl Hne) as H.
  cbv zeta in H. destruct H as (_ & _ & Htotal & _). exact Htotal.
Defined.

Lemma uptimeHistory_append_only_witness :
  inst (mountedAt morning)
  = Some {| firstRender := {| c_sessionActive := false; c_todayKey := "2024-01-01" |};
            intervalRender := {| c_sessionActive := true; c_todayKey := "2024-01-01" |};
            lastRender := {| c_sessionActive := true; c_todayKey := "2024-01-01" |};
            pendingQuery := Some (1704067200000, 1704153599999) |}
  ∧ ∃ suffix,
      uptimeHistory
        (hooks (world (step 0 (hhmmss 0) (morning + 60000) Tick (mountedAt morning))))
      = uptimeHistory (hooks (world (mountedAt morning))) ++ suffix
      ∧ (length suffix ≤ 1)%nat.
Proof.
  assert (inst (mountedAt morning)
          = Some {| firstRender := {| c_sessionActive := false;
                                      c_todayKey := "2024-01-01" |};
                    intervalRender := {| c_sessionActive := true;
                                         c_todayKey := "2024-01-01" |};
                    lastRender := {| c_sessionActive := true;
                                     c_todayKey := "2024-01-01" |};
                    pendingQuery := Some (1704067200000, 1704153599999) |})
    as Hi by (vm_compute; reflexivity).
  split; [exact Hi|].
  pose proof (uptimeHistory_append_only 0 (hhmmss 0) (morning + 60000) Tick
                (mountedAt morning) _ Hi) as H.
  cbv zeta in H. destruct H as (suffix & Heq & [-> | [_ ->]]);
    eexists; (split; [exact Heq|cbn; lia]).
Defined.

(** An instant, 2024-01-02T02:00:00Z, at which a host five hours west of
    Greenwich is still on 2024-01-01. *)
Lemma key_day_differs_witness :
  Date.Day (Date.LocalTime (-18000000) 1704160800000) ≠ Date.Day 1704160800000
  ∧ todayKey 1704160800000 = "2024-01-02"
  ∧ Date.isoDate (Date.LocalTime (-18000000) 1704160800000) = "2024-01-01"
  ∧ Date.isoDate (Date.LocalTime (-18000000) 1704160800000) ≠ todayKey 1704160800000.
Proof.
  assert (Date.Day (Date.LocalTime (-18000000) 1704160800000)
          ≠ Date.Day 1704160800000) as Hdiff by (vm_compute; discriminate).
  split; [exact Hdiff|]. split; [reflexivity|]. split; [reflexivity|].
  pose proof (key_day_differs_from_window_day (-18000000) 1704160800000
                emptyWorld Hdiff) as H.
  cbv zeta in H. destruct H as (_ & _ & Hwin & Hne).
  apply (Hne 1704160800000). apply Hwin. reflexivity.
Defined.

Lemma scenario_count_witness :
  totalScenarios
    (hooks (world (run 0 (hhmmss 0)
                     [(morning, Mount);
                      (morning + 250,
                       Snapshot [{| docId := "a"; date := 1704067200000 |};
                                 {| docId := "b"; date := 1704153599999 |};
                                 {| docId := "c"; date := 1704153600000 |};
                                 {| docId := "d"; date := 1704067199999 |}])]
                     (unmounted emptyWorld))))
  = 2%nat.
Proof.
  pose proof (scenario_count_is_local_day_count 0 (hhmmss 0) emptyWorld morning
                (morning + 250)
                [{| docId := "a"; date := 1704067200000 |};
                 {| docId := "b"; date := 1704153599999 |};
                 {| docId := "c"; date := 1704153600000 |};
                 {| docId := "d"; date := 1704067199999 |}]) as H.
  cbv zeta in H. destruct H as (Hcount & _).
  exact (eq_trans Hcount eq_refl).
Defined.

(** * Further properties of the code *)

(** ** The date key *)

Lemma length_pretty_N_go_le (k : nat) (x : N) (s : string) :
  (x < 10 ^ N.of_nat k)%N →
  (String.length (pretty_N_go x s) ≤ String.length s + k)%nat.
Proof.
  revert x s. induction k as [|k IH]; intros x s Hx.
  - assert (x = 0%N) as -> by (cbn in Hx; lia). rewrite pretty_N_go_0. lia.
  - destruct (decide (x = 0%N)) as [-> | Hx0]; [rewrite pretty_N_go_0; lia|].
    rewrite pretty_N_go_step by lia.
    etrans; [apply IH|cbn; lia].
    rewrite Nat2N.inj_succ, N.pow_succ_r' in Hx.
    apply N.Div0.div_lt_upper_bound. lia.
Qed.

(** A number below [10^k] padded to [k] digits has exactly [k] digits. *)
Lemma numeral_length (k : nat) (n : Z) :
  (0 < k)%nat → 0 ≤ n < 10 ^ Z.of_nat k →
  String.length (JS.padStart0 k (JS.String_ n)) = k.
Proof.
  intros Hk [Hn Hlt]. rewrite JSFacts.pretty_Z_nonneg by done.
  rewrite JSFacts.length_padStart0.
  assert (String.length (pretty (Z.to_N n)) ≤ k)%nat; [|lia].
  rewrite JSFacts.pretty_N_unfold. case_decide; [cbn; lia|].
  etrans; [apply (length_pretty_N_go_le k)|cbn; lia].
  apply N2Z.inj_lt. rewrite N2Z.inj_pow, Z2N.id, nat_N_Z by done. done.
Qed.

Lemma YearFromTime_four_digits (t : Z) :
  firstFourDigitTime ≤ t ≤ lastFourDigitTime → 0 ≤ Date.YearFromTime t ≤ 9999.
Proof.
  unfold firstFourDigitTime, lastFourDigitTime. intros Ht.
  unfold Date.YearFromTime.
  pose proof (DateFacts.YearFromDay_spec (Date.Day t)) as Hs.
  assert (-719528 ≤ Date.Day t ≤ 2932896) as Hd.
  { unfold Date.Day, Date.msPerDay. DateFacts.div_lia. }
  set (y := Date.YearFromDay (Date.Day t)) in *.
  split.
  - destruct (decide (0 ≤ y)) as [|Hneg]; [done|].
    pose proof (DateFacts.DayFromYear_mono (y + 1) 0 ltac:(lia)) as Hm.
    change (Date.DayFromYear 0) with (-719528) in Hm. lia.
  - destruct (decide (y ≤ 9999)) as [|Hbig]; [done|].
    pose proof (DateFacts.DayFromYear_mono 10000 y ltac:(lia)) as Hm.
    change (Date.DayFromYear 10000) with 2932897 in Hm. lia.
Qed.

(** X9.  Two clock readings give the same date key exactly when they fall
    on the same UTC day: the key names the UTC day, and nothing else of the
    reading. *)
Theorem todayKey_same_iff_same_UTC_day (t1 t2 : Z) :
  todayKey t1 = todayKey t2 ↔ Date.Day t1 = Date.Day t2.
Proof.
  split; [apply IsoFacts.todayKey_inj|apply IsoFacts.todayKey_Day].
Qed.

(** X10.  For a clock reading in the years 0000 to 9999 the date key is ten
    characters, [YYYY-MM-DD]: three decimal numerals of four, two and two
    digits, which read back as the UTC year, the month from 1 to 12 and the
    day of the month from 1 to 31. *)
Theorem todayKey_format (t : Z) :
  firstFourDigitTime ≤ t ≤ lastFourDigitTime →
  String.length (todayKey t) = 10%nat
  ∧ ∃ yyyy mm dd : string,
      todayKey t = yyyy +:+ "-" +:+ mm +:+ "-" +:+ dd
      ∧ String.length yyyy = 4%nat ∧ String.length mm = 2%nat
      ∧ String.length dd = 2%nat
      ∧ JS.allDigits yyyy ∧ JS.allDigits mm ∧ JS.allDigits dd
      ∧ JS.digits yyyy 0 = Date.YearFromTime t
      ∧ JS.digits mm 0 = Date.MonthFromTime t + 1
      ∧ JS.digits dd 0 = Date.DateFromTime t
      ∧ 1 ≤ JS.digits mm 0 ≤ 12 ∧ 1 ≤ JS.digits dd 0 ≤ 31.
Proof.
  intros Ht. pose proof (YearFromTime_four_digits t Ht) as Hy.
  pose proof (DateFacts.MonthFromTime_bounds t) as Hm.
  pose proof (DateFacts.DateFromTime_bounds t) as Hd.
  rewrite IsoFacts.todayKey_isoDate. unfold Date.isoDate.
  destruct (IsoFacts.yearString_cases (Date.YearFromTime t))
    as [[_ ->] | [[? _] | [? _]]]; [|lia..].
  pose proof (numeral_length 4 (Date.YearFromTime t) ltac:(lia) ltac:(lia)) as Hly.
  pose proof (numeral_length 2 (Date.MonthFromTime t + 1) ltac:(lia) ltac:(lia))
    as Hlm.
  pose proof (numeral_length 2 (Date.DateFromTime t) ltac:(lia) ltac:(lia)) as Hld.
  split.
  - rewrite !JSFacts.string_length_app, Hly, Hlm, Hld. reflexivity.
  - eexists _, _, _. split; [reflexivity|].
    rewrite !IsoFacts.digits_numeral by lia.
    repeat split; try done; try lia; apply IsoFacts.allDigits_numeral; lia.
Qed.

Lemma todayKey_format_witness :
  firstFourDigitTime ≤ morning ≤ lastFourDigitTime
  ∧ String.length (todayKey morning) = 10%nat.
Proof.
  assert (firstFourDigitTime ≤ morning ≤ lastFourDigitTime) as H
    by (vm_compute; split; discriminate).
  split; [exact H|]. exact (proj1 (todayKey_format morning H)).
Defined.

(** ** [formatUptime] *)

(** X12.  For non-negative totals, two totals are displayed alike exactly
    when they have the same number of whole minutes: the display loses the
    seconds and nothing else. *)
Theorem formatUptime_same_iff_same_minutes (a b : Z) :
  0 ≤ a → 0 ≤ b →
  formatUptime a = formatUptime b ↔ a `div` 60000 = b `div` 60000.
Proof.
  intros Ha Hb. unfold formatUptime, JS.floorDiv, JS.remainder.
  set (ma := a `div` 60000). set (mb := b `div` 60000).
  assert (0 ≤ ma) as Hma by (apply Z.div_pos; lia).
  assert (0 ≤ mb) as Hmb by (apply Z.div_pos; lia).
  rewrite !Z.rem_mod_nonneg by lia.
  pose proof (Z.mod_pos_bound ma 60 ltac:(lia)).
  pose proof (Z.mod_pos_bound mb 60 ltac:(lia)).
  assert (0 ≤ ma `div` 60) by (apply Z.div_pos; lia).
  assert (0 ≤ mb `div` 60) by (apply Z.div_pos; lia).
  split; [|by intros ->].
  intros Heq.
  apply IsoFacts.allDigits_app_inj in Heq as [Hh Hrest];
    [|by apply IsoFacts.allDigits_numeral..|done].
  apply IsoFacts.numeral_inj in Hh; [|done..].
  injection Hrest as Hrest.
  apply IsoFacts.allDigits_app_inj in Hrest as [Hm _];
    [|by apply IsoFacts.allDigits_numeral; lia..|done].
  apply IsoFacts.numeral_inj in Hm; [|lia..].
  rewrite (Z.div_mod ma 60), (Z.div_mod mb 60) by lia. lia.
Qed.

Lemma formatUptime_same_witness :
  0 ≤ 7500000 ∧ 0 ≤ 7559999 ∧ formatUptime 7500000 = formatUptime 7559999.
Proof.
  split; [lia|]. split; [lia|].
  apply (formatUptime_same_iff_same_minutes 7500000 7559999); [lia|lia|].
  reflexivity.
Defined.

(** ** The session tracker and the storage *)

Lemma sessionCount_ne_dailyKey (d : string) : "sessionCount" ≠ dailyKey d.
Proof. discriminate. Qed.

Lemma String_nonempty (n : Z) : JS.String_ n ≠ "".
Proof.
  intros Heq. pose proof (JSFacts.parseInt_String n) as Hp.
  rewrite Heq in Hp. discriminate Hp.
Qed.

(** X1.  The start marker that [startSession] writes is read back as the
    clock reading it was written from, and the persisted flag as active; the
    one exception is a clock reading of 0, whose marker ["0"] is falsy and
    reads as no marker at all. *)
Theorem startSession_marker_round_trip (c : Closure) (w : World) :
  c_sessionActive c = false →
  let w' := exec (startSession c) w in
  startMarker w' = (if decide (clock w = 0) then None else Some (clock w))
  ∧ storedActive w' = true
  ∧ sessionActive (hooks w') = true.
Proof.
  intros Hc. cbv zeta. rewrite startSession_exec, Hc. split; [|split].
  - by apply startMarker_written with (m := items w).
  - unfold storedActive. cbn [items]. by rewrite lookup_insert_eq.
  - reflexivity.
Qed.

Lemma startSession_marker_witness :
  c_sessionActive {| c_sessionActive := false; c_todayKey := "2024-01-01" |} = false
  ∧ startMarker (exec (startSession {| c_sessionActive := false;
                                       c_todayKey := "2024-01-01" |})
                   (setClock morning emptyWorld))
    = Some morning.
Proof.
  split; [reflexivity|].
  pose proof (startSession_marker_round_trip
                {| c_sessionActive := false; c_todayKey := "2024-01-01" |}
                (setClock morning emptyWorld) eq_refl) as H.
  cbv zeta in H. destruct H as (Hm & _). exact (eq_trans Hm eq_refl).
Defined.

(** X2.  A second [endSession], whatever closure it comes from and whenever
    it runs, charges nothing: the first one removed the start marker, so the
    second leaves the storage entries and the displayed total as they are
    and only repeats the removal and the flag in the journal. *)
Theorem endSession_twice_charges_once (c1 c2 : Closure) (later : Z) (w : World) :
  let w1 := exec (endSession c1) w in
  let w2 := exec (endSession c2) (setClock later w1) in
  items w2 = items w1
  ∧ dailyUptime (hooks w2) = dailyUptime (hooks w1)
  ∧ sessionActive (hooks w2) = false
  ∧ journal w2 = journal w1 ++ [RemoveItem "sessionStart";
                                SetItem "sessionActive" "false"].
Proof.
  cbv zeta. set (w1 := exec (endSession c1) w).
  assert (startMarker (setClock later w1) = None) as Hm
    by apply endSession_startMarker.
  assert (items w1 !! "sessionStart" = None
          ∧ items w1 !! "sessionActive" = Some "false") as [Hs Ha].
  { subst w1. rewrite endSession_exec. destruct (startMarker w); cbn [items];
      by rewrite lookup_insert_ne, lookup_delete_eq, lookup_insert_eq. }
  rewrite (endSession_exec c2), Hm. cbn. repeat split.
  rewrite delete_id by done. by rewrite insert_id.
Qed.

(** X8.  The session count shown is [0] when the key [sessionCount] is
    missing or holds the empty string, the integer when it holds a decimal
    integer, and [NaN], not [0], when what it holds does not start with a
    number. *)
Theorem sessionCount_as_displayed (w : World) (n : Z) (s : string) :
  let shown v := totalSessions (hooks (exec sessionCountEffect
                   {| clock := clock w; items := <["sessionCount" := v]> (items w);
                      journal := journal w; hooks := hooks w |})) in
  (items w !! "sessionCount" = None →
   totalSessions (hooks (exec sessionCountEffect w)) = Some 0)
  ∧ shown "" = Some 0
  ∧ shown (JS.String_ n) = Some n
  ∧ (s ≠ "" → JS.parseIntStr s = None → shown s = None).
Proof.
  cbv zeta. split; [|split; [|split]].
  - intros Hnone. run_handler. by rewrite Hnone.
  - run_handler. by rewrite lookup_insert_eq.
  - run_handler. rewrite lookup_insert_eq.
    rewrite decide_False by apply String_nonempty.
    apply (JSFacts.parseInt_String n).
  - intros Hs Hp. run_handler. rewrite lookup_insert_eq.
    by rewrite decide_False.
Qed.

Section Extras.

Variable tz : Z.
Variable toLocaleTimeString : Z → string.

(** X11.  The window of the scenario query always contains the instant at
    which it is built, and spans 86399999 ms: a record dated at the moment of
    the query is counted. *)
Theorem scenario_window_contains_now (now : Z) (w : World) (id : string) :
  let window := (scenarioWindow tz (setClock now w)).1 in
  window.1 ≤ now ≤ window.2
  ∧ window.2 - window.1 = Date.msPerDay - 1
  ∧ getDocs window.1 window.2 [{| docId := id; date := now |}]
    = [{| docId := id; date := now |}].
Proof.
  cbv zeta. rewrite scenarioWindow_run. cbn [fst snd clock setClock].
  assert (Date.setHours tz 0 0 0 0 now ≤ now ≤ Date.setHours tz 23 59 59 999 now)
    as Hin by (by apply window_is_local_day).
  split; [done|]. split.
  - unfold Date.setHours, Date.UTC, Date.MakeDate, Date.MakeTime,
      Date.msPerDay, Date.msPerHour, Date.msPerMinute, Date.msPerSecond. lia.
  - unfold getDocs. by rewrite filter_cons_True.
Qed.

(** X7.  No event of the component touches a storage entry other than
    [sessionStart], [sessionActive] and the daily totals: every other key,
    [sessionCount] among them, is only ever read. *)
Theorem foreign_keys_untouched (now : Z) (e : Event) (p : Page) (k : string) :
  k ≠ "sessionStart" → k ≠ "sessionActive" → (∀ day, k ≠ dailyKey day) →
  items (world (step tz toLocaleTimeString now e p)) !! k = items (world p) !! k.
Proof.
  intros Hs Ha Hd.
  assert (∀ c v, items (exec (endSession c) (setClock now v)) !! k = items v !! k)
    as Hend.
  { intros c v. rewrite endSession_exec.
    destruct (startMarker _); cbn [items setClock];
      rewrite lookup_insert_ne, lookup_delete_ne by done; [|done].
    by rewrite lookup_insert_ne. }
  unfold step. destruct (inst p) as [i|], e; cbn [handle world]; try done;
    try apply Hend.
  - rewrite tick_exec. destruct (if c_sessionActive _ then _ else _); [|done].
    cbn [items setClock]. by rewrite lookup_insert_ne.
  - destruct (pendingQuery i); [|done]. cbn [handle world].
    by rewrite applySnapshot_exec.
  - rewrite mount_items. destruct (storedActive _); [done|].
    cbn [items setClock]. by rewrite !lookup_insert_ne.
Qed.

(** X15.  A tick changes at most one storage entry, the daily total under
    the date its closure captured: it neither moves nor clears the start
    marker, and leaves the persisted flag and the active state alone. *)
Theorem tick_changes_one_entry (now : Z) (p : Page) (i : Instance) (k : string) :
  inst p = Some i →
  let p' := step tz toLocaleTimeString now Tick p in
  (k ≠ dailyKey (c_todayKey (intervalRender i)) →
   items (world p') !! k = items (world p) !! k)
  ∧ startMarker (world p') = startMarker (world p)
  ∧ storedActive (world p') = storedActive (world p)
  ∧ sessionActive (hooks (world p')) = sessionActive (hooks (world p)).
Proof.
  intros Hi. cbv zeta. rewrite (step_tick _ _ _ _ _ Hi). cbn [handle world].
  split; [|split; [|split]].
  - intros Hk. rewrite tick_exec.
    destruct (if c_sessionActive _ then _ else _); [|done].
    cbn [items setClock]. by rewrite lookup_insert_ne.
  - by rewrite tick_startMarker.
  - unfold storedActive. rewrite tick_exec.
    destruct (if c_sessionActive _ then _ else _); [|done].
    cbn [items setClock]. by rewrite lookup_insert_ne.
  - rewrite tick_exec. by destruct (if c_sessionActive _ then _ else _).
Qed.

(** X16.  Whenever a tick or an [endSession] accrues, the total it puts on
    display is the total it persists, under the date its closure captured. *)
Theorem displayed_total_is_persisted_total
    (now : Z) (p : Page) (i : Instance) (startTs : Z) :
  inst p = Some i →
  startMarker (world p) = Some startTs →
  let shown e := dailyUptime (hooks (world (step tz toLocaleTimeString now e p))) in
  let stored e c :=
    persistedTotal (world (step tz toLocaleTimeString now e p)) (c_todayKey c) in
  (c_sessionActive (intervalRender i) = true →
   shown Tick = stored Tick (intervalRender i))
  ∧ shown ClickEndSession = stored ClickEndSession (lastRender i)
  ∧ shown BeforeUnload = stored BeforeUnload (firstRender i)
  ∧ shown Unmount = stored Unmount (firstRender i).
Proof.
  intros Hi Hs. cbv zeta. unfold step. rewrite Hi. cbn [handle world].
  assert (∀ c, dailyUptime (hooks (exec (endSession c) (setClock now (world p))))
               = persistedTotal (exec (endSession c) (setClock now (world p)))
                   (c_todayKey c)) as Hend.
  { intros c. rewrite endSession_total, startMarker_setClock, Hs.
    rewrite decide_True by done.
    by rewrite endSession_exec, startMarker_setClock, Hs. }
  split; [|by rewrite !Hend].
  intros Hc. rewrite tick_total, Hc, startMarker_setClock, Hs.
  rewrite decide_True by done.
  by rewrite tick_exec, Hc, startMarker_setClock, Hs.
Qed.

End Extras.

(** ** Runs of the component *)

Lemma nondecreasing_snoc (l : list Z) (x : Z) :
  nondecreasing l → Forall (λ a, a ≤ x) l → nondecreasing (l ++ [x]).
Proof.
  intros Hl Hx i j a b Hij Hi Hj.
  destruct (decide (j < length l)%nat) as [Hlt | Hge].
  - rewrite lookup_app_l in Hi, Hj by lia. eauto.
  - assert (b = x) as ->.
    { rewrite lookup_app_r in Hj by lia.
      destruct (j - length l)%nat; [by injection Hj|done]. }
    destruct (decide (i < length l)%nat) as [Hlt | Hge'].
    + rewrite lookup_app_l in Hi by lia.
      rewrite Forall_forall in Hx. apply Hx. by eapply list_elem_of_lookup_2.
    + rewrite lookup_app_r in Hi by lia.
      destruct (i - length l)%nat; [injection Hi; lia|done].
Qed.

(** After any render the interval's closure agrees with [sessionActive]. *)
Lemma rerender_agrees (before : Hooks) (i : Instance) (w : World) :
  sessionActive before = c_sessionActive (intervalRender i) →
  c_sessionActive (intervalRender (rerender before i w)) = sessionActive (hooks w).
Proof.
  intros Hk. unfold rerender. case_decide as Hh; [by rewrite Hh|].
  cbn. by case_decide.
Qed.

Section Runs.

Variable tz : Z.
Variable toLocaleTimeString : Z → string.

Lemma mount_hooks (w : World) :
  dailyUptime (hooks (world (mount tz w))) = persistedTotal w (todayKey (clock w))
  ∧ totalScenarios (hooks (world (mount tz w))) = 0%nat.
Proof.
  rewrite mount_world.
  destruct (sessionCountEffect_exec
    (exec (mountEffect {| c_sessionActive := false;
                          c_todayKey := todayKey (clock w) |})
       (resetHooks w))) as (_ & _ & _ & _ & _ & -> & ->).
  rewrite mountEffect_exec. cbv zeta.
  destruct (storedActive (resetHooks w)); [done|].
  by rewrite startSession_exec.
Qed.

Lemma mount_startMarker (w : World) :
  startMarker (world (mount tz w)) =
  if storedActive w then startMarker w
  else if decide (clock w = 0) then None else Some (clock w).
Proof.
  pose proof (mount_items tz w) as Hi. destruct (storedActive w).
  - unfold startMarker. by rewrite Hi.
  - by apply startMarker_written with (m := items w).
Qed.

Lemma mount_storedActive (w : World) : storedActive (world (mount tz w)) = true.
Proof.
  unfold storedActive at 1. rewrite mount_items.
  destruct (storedActive w) eqn:Ha.
  - unfold storedActive in Ha. by apply bool_decide_eq_true in Ha as ->.
  - by rewrite lookup_insert_eq.
Qed.

(** Once no start marker is recorded, nothing but a mount brings one back,
    and until then nothing is charged and no history entry is added. *)
Lemma quiet_step (now : Z) (e : Event) (q : Page) :
  startMarker (world q) = None → e ≠ Mount →
  (∀ day, persistedTotal (world (step tz toLocaleTimeString now e q)) day
          = persistedTotal (world q) day)
  ∧ uptimeHistory (hooks (world (step tz toLocaleTimeString now e q)))
    = uptimeHistory (hooks (world q))
  ∧ startMarker (world (step tz toLocaleTimeString now e q)) = None.
Proof.
  intros Hm He.
  assert (∀ c, exec (tick toLocaleTimeString c) (setClock now (world q))
               = setClock now (world q)) as Htick.
  { intros c. rewrite tick_exec, startMarker_setClock, Hm.
    by destruct (c_sessionActive c). }
  unfold step. destruct (inst q) as [i|], e; cbn [handle world]; try done;
    try (split; [|split];
         [intros day; by rewrite endSession_total, startMarker_setClock, Hm
         |by rewrite endSession_history
         |by apply endSession_startMarker]).
  - by rewrite Htick.
  - destruct (pendingQuery i); [|done]. cbn [handle world].
    by rewrite applySnapshot_exec.
Qed.

Lemma quiet_run (evs : list (Z * Event)) (q : Page) :
  startMarker (world q) = None → Forall (λ te, te.2 ≠ Mount) evs →
  (∀ day, persistedTotal (world (run tz toLocaleTimeString evs q)) day
          = persistedTotal (world q) day)
  ∧ uptimeHistory (hooks (world (run tz toLocaleTimeString evs q)))
    = uptimeHistory (hooks (world q))
  ∧ startMarker (world (run tz toLocaleTimeString evs q)) = None.
Proof.
  intros Hm Hevs. revert q Hm.
  induction Hevs as [|[t e] evs He _ IH]; intros q Hm; [done|].
  unfold run in *. cbn [foldl fst snd] in *.
  destruct (quiet_step t e q Hm He) as (Ht & Hh & Hm').
  destruct (IH _ Hm') as (Ht' & Hh' & Hm'').
  repeat split; [|congruence|done]. intros day. by rewrite Ht', Ht.
Qed.

(** X3.  After [endSession] (from the button, [beforeunload] or
    unmounting) and until the component is mounted again, whatever events
    follow, at whatever times: no daily total changes, no history entry is
    added, and no start marker is recorded.  In particular [beforeunload]
    followed by unmounting charges the session once. *)
Theorem nothing_accrues_after_endSession
    (t : Z) (e : Event) (p : Page) (i : Instance) (evs : list (Z * Event)) :
  inst p = Some i →
  e = ClickEndSession ∨ e = BeforeUnload ∨ e = Unmount →
  Forall (λ te, te.2 ≠ Mount) evs →
  let q := step tz toLocaleTimeString t e p in
  let r := run tz toLocaleTimeString evs q in
  (∀ day, persistedTotal (world r) day = persistedTotal (world q) day)
  ∧ uptimeHistory (hooks (world r)) = uptimeHistory (hooks (world q))
  ∧ startMarker (world r) = None.
Proof.
  intros Hi He Hevs. cbv zeta. apply quiet_run; [|done].
  unfold step. rewrite Hi.
  destruct He as [-> | [-> | ->]]; cbn [handle world];
    apply endSession_startMarker.
Qed.

(** X4.  Mounting on a storage whose flag says active starts nothing: the
    storage is left exactly as found and the session on record is taken up
    again, so that the next tick charges the whole time since the marker
    found, under the date of the mount. *)
Theorem mount_resumes_recorded_session (now later startTs : Z) (w : World) :
  storedActive w = true →
  startMarker w = Some startTs →
  let p := step tz toLocaleTimeString now Mount (unmounted w) in
  items (world p) = items w
  ∧ journal (world p) = journal w
  ∧ sessionActive (hooks (world p)) = true
  ∧ persistedTotal (world (step tz toLocaleTimeString later Tick p)) (todayKey now)
    = persistedTotal w (todayKey now) + (later - startTs).
Proof.
  intros Ha Hs. cbv zeta. rewrite step_mount.
  pose proof (mount_items tz (setClock now w)) as Hi.
  pose proof (mount_journal tz (setClock now w)) as Hj.
  change (storedActive (setClock now w)) with (storedActive w) in Hi, Hj.
  rewrite Ha in Hi, Hj.
  split; [done|]. split; [done|]. split; [apply mount_sessionActive|].
  rewrite (step_tick _ _ _ _ _ (mount_inst tz _)). cbn [handle world intervalRender].
  rewrite tick_total. cbn [c_sessionActive c_todayKey clock setClock].
  rewrite startMarker_setClock, mount_startMarker.
  change (storedActive (setClock now w)) with (storedActive w).
  rewrite Ha, startMarker_setClock, Hs, decide_True by done.
  by rewrite persistedTotal_setClock, mount_total, persistedTotal_setClock.
Qed.

(** X5.  Right after mounting, whatever the storage held: the session is
    active in the state and in the persisted flag, the total on display is
    the one stored under the UTC date of the mount (0 when missing or
    unparsable), the history and the scenario count are empty, and the start
    marker is the one found if the flag said active, the clock of the mount
    otherwise. *)
Theorem mount_establishes_active_session (now : Z) (w : World) :
  let p := step tz toLocaleTimeString now Mount (unmounted w) in
  sessionActive (hooks (world p)) = true
  ∧ storedActive (world p) = true
  ∧ dailyUptime (hooks (world p)) = persistedTotal w (todayKey now)
  ∧ uptimeHistory (hooks (world p)) = []
  ∧ totalScenarios (hooks (world p)) = 0%nat
  ∧ startMarker (world p)
    = (if storedActive w then startMarker w
       else if decide (now = 0) then None else Some now).
Proof.
  cbv zeta. rewrite step_mount.
  destruct (mount_hooks (setClock now w)) as [Hd Hc].
  split; [apply mount_sessionActive|]. split; [apply mount_storedActive|].
  split; [done|]. split; [apply mount_history|]. split; [done|].
  exact (mount_startMarker (setClock now w)).
Qed.

(** X6.  The total survives a remount: unmounting charges the session and
    a mount on the same UTC day puts the total just persisted back on
    display; the new session starts at the clock of the new mount, so the
    time spent unmounted is not charged. *)
Theorem total_survives_remount
    (t1 t2 startTs : Z) (p : Page) (i : Instance) :
  inst p = Some i →
  startMarker (world p) = Some startTs →
  todayKey t2 = c_todayKey (firstRender i) →
  t2 ≠ 0 →
  let q := step tz toLocaleTimeString t1 Unmount p in
  let r := step tz toLocaleTimeString t2 Mount q in
  dailyUptime (hooks (world r))
  = persistedTotal (world p) (todayKey t2) + (t1 - startTs)
  ∧ dailyUptime (hooks (world r)) = dailyUptime (hooks (world q))
  ∧ persistedTotal (world r) (todayKey t2) = dailyUptime (hooks (world r))
  ∧ startMarker (world r) = Some t2.
Proof.
  intros Hi Hs Hk Ht2. cbv zeta. rewrite (step_unmount _ _ _ _ _ Hi).
  set (w1 := exec (endSession (firstRender i)) (setClock t1 (world p))).
  change (step tz toLocaleTimeString t2 Mount {| world := w1; inst := None |})
    with (mount tz (setClock t2 w1)).
  destruct (mount_hooks (setClock t2 w1)) as [Hd _].
  cbn [clock setClock] in Hd.
  assert (persistedTotal w1 (todayKey t2)
          = persistedTotal (world p) (todayKey t2) + (t1 - startTs)) as Hp.
  { subst w1. rewrite endSession_total, startMarker_setClock, Hs.
    by rewrite decide_True. }
  assert (dailyUptime (hooks w1)
          = persistedTotal (world p) (todayKey t2) + (t1 - startTs)) as Hq.
  { subst w1. rewrite endSession_exec, startMarker_setClock, Hs.
    cbn [hooks dailyUptime clock setClock]. by rewrite Hk. }
  assert (storedActive (setClock t2 w1) = false) as Ha.
  { subst w1. unfold storedActive. rewrite endSession_exec.
    destruct (startMarker _); cbn [items setClock];
      by rewrite lookup_insert_eq. }
  rewrite Hd, persistedTotal_setClock, Hp. cbn [world].
  split; [done|]. split; [by rewrite Hq|].
  split; [by rewrite mount_total, persistedTotal_setClock|].
  rewrite mount_startMarker, Ha. cbn [clock setClock]. by rewrite decide_False.
Qed.

(** X14.  After a mount that starts a session at [t0], [n] ticks 60000 ms
    apart have added 60000·(1 + … + n) ms to the total of the day of the
    mount, and [n] points to the chart. *)
Theorem ticks_after_mount (n : nat) (t0 : Z) (w : World) :
  storedActive w = false →
  t0 ≠ 0 →
  let p := run tz toLocaleTimeString ((t0, Mount) :: tickEvents t0 n)
             (unmounted w) in
  persistedTotal (world p) (todayKey t0)
  = persistedTotal w (todayKey t0) + 30000 * Z.of_nat n * (Z.of_nat n + 1)
  ∧ length (chartValues (hooks (world p))) = n
  ∧ length (chartLabels (hooks (world p))) = n.
Proof.
  intros Ha Ht0. cbv zeta.
  change (run tz toLocaleTimeString ((t0, Mount) :: tickEvents t0 n) (unmounted w))
    with (run tz toLocaleTimeString (tickEvents t0 n)
            (mount tz (setClock t0 w))).
  assert (startMarker (world (mount tz (setClock t0 w))) = Some t0) as Hs.
  { rewrite mount_startMarker.
    change (storedActive (setClock t0 w)) with (storedActive w). rewrite Ha.
    cbn [clock setClock]. by rewrite decide_False. }
  destruct (ticks_accumulate tz toLocaleTimeString n _ _ t0
              (mount_inst tz (setClock t0 w)) eq_refl
              (mount_sessionActive tz _) Hs) as (Ht & Hl & _).
  cbn [intervalRender c_todayKey clock setClock] in Ht.
  rewrite mount_total, persistedTotal_setClock in Ht.
  rewrite mount_history in Hl. cbn [length] in Hl.
  unfold chartValues, chartLabels. rewrite !length_fmap. done.
Qed.

End Runs.

(** ** The trend chart *)

Lemma endSession_sessionActive (c : Closure) (w : World) :
  sessionActive (hooks (exec (endSession c) w)) = false.
Proof. rewrite endSession_exec. by destruct (startMarker w). Qed.

Lemma endSession_marker_gone (c : Closure) (w : World) (s : Z) :
  startMarker (exec (endSession c) w) = Some s → False.
Proof. by rewrite endSession_startMarker. Qed.

Section Chart.

Variable tz : Z.
Variable toLocaleTimeString : Z → string.

Lemma chartInv_mount (w : World) : chartInv (mount tz w).
Proof.
  unfold chartInv, chartValues. rewrite mount_history, mount_inst.
  cbn [intervalRender c_sessionActive fmap list_fmap].
  split; [by intros i j a b _ Hi|]. split; [apply mount_sessionActive|].
  by intros _.
Qed.

Lemma chartInv_tick (now : Z) (p : Page) (i : Instance) :
  chartInv p → inst p = Some i →
  (∀ s, startMarker (world p) = Some s → s ≤ now) →
  chartInv (handle i (tick toLocaleTimeString (intervalRender i))
              (setClock now (world p))).
Proof.
  intros [Hsorted Hinst] Hi Hclock. rewrite Hi in Hinst.
  destruct Hinst as [Hk Hbound].
  destruct (c_sessionActive (intervalRender i)) eqn:Hc;
    [destruct (startMarker (world p)) as [s|] eqn:Hs|].
  - specialize (Hclock s eq_refl). specialize (Hbound eq_refl).
    set (key := c_todayKey (intervalRender i)) in *.
    set (T := persistedTotal (world p) key) in *.
    unfold handle. cbv zeta.
    rewrite tick_exec, Hc, startMarker_setClock, Hs. cbv zeta.
    change (persistedTotal (setClock now (world p)) key) with T.
    cbn [clock setClock hooks].
    assert (T `div` 60000 ≤ (T + (now - s)) `div` 60000) as Hmono
      by (apply Z.div_le_mono; lia).
    assert (Forall (λ a, a ≤ (T + (now - s)) `div` 60000)
              (chartValues (hooks (world p)))) as Hbound'.
    { eapply Forall_impl; [exact Hbound|]. cbn. intros a Ha. lia. }
    unfold chartInv. cbn [world inst hooks].
    unfold chartValues at 1. cbn [uptimeHistory].
    rewrite fmap_app. cbn [fmap list_fmap uptime].
    split; [by apply nondecreasing_snoc|].
    rewrite rerender_intervalRender by (cbn; congruence).
    split; [cbn; congruence|]. intros _.
    unfold persistedTotal. cbn [items]. rewrite total_after_write.
    fold key. rewrite decide_True by done.
    unfold chartValues. cbn [hooks uptimeHistory].
    rewrite fmap_app. apply Forall_app. split; [exact Hbound'|].
    cbn. by constructor.
  - unfold handle. cbv zeta.
    rewrite tick_exec, Hc, startMarker_setClock, Hs.
    unfold rerender. rewrite decide_True by done.
    unfold chartInv. cbn [world inst]. split; [exact Hsorted|].
    split; [rewrite Hc; exact Hk|]. intros _. exact (Hbound eq_refl).
  - unfold handle. cbv zeta. rewrite tick_exec, Hc.
    unfold rerender. rewrite decide_True by done.
    unfold chartInv. cbn [world inst]. split; [exact Hsorted|].
    split; [rewrite Hc; exact Hk|]. rewrite Hc. intros Hc'. discriminate Hc'.
Qed.

Lemma chartInv_endSession (now : Z) (c : Closure) (p : Page) (i : Instance) :
  chartInv p → inst p = Some i →
  chartInv (handle i (endSession c) (setClock now (world p))).
Proof.
  intros [Hsorted Hinst] Hi. rewrite Hi in Hinst. destruct Hinst as [Hk _].
  unfold handle. cbv zeta. unfold chartInv. cbn [world inst].
  unfold chartValues. rewrite endSession_history.
  split; [exact Hsorted|].
  pose proof (rerender_agrees (hooks (setClock now (world p))) i
                (exec (endSession c) (setClock now (world p))) Hk) as Hagree.
  rewrite endSession_sessionActive in Hagree.
  split; [by rewrite endSession_sessionActive|].
  intros Hc. congruence.
Qed.

Lemma chartInv_snapshot
    (now : Z) (window : Z * Z) (docs : list Scenario) (p : Page) (i i0 : Instance) :
  chartInv p → inst p = Some i → intervalRender i0 = intervalRender i →
  chartInv (handle i0 (applySnapshot window docs) (setClock now (world p))).
Proof.
  intros [Hsorted Hinst] Hi Hi0. rewrite Hi in Hinst.
  destruct Hinst as [Hk Hbound]. rewrite <-Hi0 in Hk, Hbound.
  unfold handle. cbv zeta. rewrite applySnapshot_exec.
  unfold chartInv. cbn [world inst hooks].
  split; [exact Hsorted|].
  rewrite rerender_intervalRender by (cbn; done).
  split; [cbn; done|]. exact Hbound.
Qed.

(** One event keeps the chart from going down, and records no new
    marker. *)
Lemma chartInv_step (now : Z) (e : Event) (p : Page) :
  chartInv p → e ≠ Mount →
  (∀ s, startMarker (world p) = Some s → s ≤ now) →
  chartInv (step tz toLocaleTimeString now e p)
  ∧ ∀ s, startMarker (world (step tz toLocaleTimeString now e p)) = Some s →
         startMarker (world p) = Some s.
Proof.
  intros Hinv He Hclock. unfold step.
  destruct (inst p) as [i|] eqn:Hi; [|by destruct e].
  destruct e; [done|..].
  - split; [by apply chartInv_tick|]. intros s. cbn [handle world].
    by rewrite tick_startMarker.
  - split; [by apply chartInv_endSession|]. intros s Hs. cbn [handle world] in Hs.
    by apply endSession_marker_gone in Hs.
  - split; [by apply chartInv_endSession|]. intros s Hs. cbn [handle world] in Hs.
    by apply endSession_marker_gone in Hs.
  - destruct (pendingQuery i); [|done].
    split; [by eapply chartInv_snapshot|]. intros s. cbn [handle world].
    by rewrite applySnapshot_exec.
  - split.
    + destruct Hinv as [Hsorted _]. unfold chartInv, chartValues. cbn [world inst].
      by rewrite endSession_history.
    + intros s Hs. cbn [world] in Hs. by apply endSession_marker_gone in Hs.
Qed.

Lemma chartInv_run (evs : list (Z * Event)) (p : Page) :
  chartInv p → Forall (λ te, te.2 ≠ Mount) evs →
  (∀ s, startMarker (world p) = Some s → Forall (λ te, s ≤ te.1) evs) →
  chartInv (run tz toLocaleTimeString evs p).
Proof.
  intros Hinv Hevs. revert p Hinv.
  induction Hevs as [|[t e] evs He _ IH]; intros p Hinv Hclock; [done|].
  unfold run in *. cbn [foldl fst snd] in *.
  destruct (chartInv_step t e p Hinv He) as [Hinv' Hmarker].
  { intros s Hs. specialize (Hclock s Hs). by inversion Hclock. }
  apply IH; [done|]. intros s Hs. apply Hmarker in Hs.
  specialize (Hclock s Hs). by inversion Hclock.
Qed.

(** X13.  The chart never goes down: from a mount on, as long as no event
    happens at a clock reading earlier than the start marker on record, the
    series of minutes handed to the chart is non-decreasing, whatever events
    follow the mount; and the chart has one label per value. *)
Theorem chart_never_goes_down (t0 : Z) (w : World) (evs : list (Z * Event)) :
  let p0 := step tz toLocaleTimeString t0 Mount (unmounted w) in
  Forall (λ te, te.2 ≠ Mount) evs →
  (∀ s, startMarker (world p0) = Some s → Forall (λ te, s ≤ te.1) evs) →
  let h := hooks (world (run tz toLocaleTimeString evs p0)) in
  nondecreasing (chartValues h) ∧ length (chartLabels h) = length (chartValues h).
Proof.
  cbv zeta. rewrite step_mount. intros Hevs Hclock.
  split; [|unfold chartLabels, chartValues; by rewrite !length_fmap].
  by apply chartInv_run; [apply chartInv_mount|..].
Qed.

End Chart.

(** ** The further properties on concrete runs *)

Lemma nothing_accrues_witness :
  inst (mountedAt morning) = Some morningInstance
  ∧ Forall (λ te : Z * Event, te.2 ≠ Mount)
      [(morning + 120000, Tick); (morning + 130000, BeforeUnload);
       (morning + 140000, Unmount)]
  ∧ persistedTotal
      (world (run 0 (hhmmss 0)
                [(morning + 120000, Tick); (morning + 130000, BeforeUnload);
                 (morning + 140000, Unmount)]
                (step 0 (hhmmss 0) (morning + 90000) ClickEndSession
                   (mountedAt morning))))
      "2024-01-01"
    = persistedTotal
        (world (step 0 (hhmmss 0) (morning + 90000) ClickEndSession
                  (mountedAt morning)))
        "2024-01-01".
Proof.
  assert (inst (mountedAt morning) = Some morningInstance) as Hi
    by (vm_compute; reflexivity).
  assert (Forall (λ te : Z * Event, te.2 ≠ Mount)
            [(morning + 120000, Tick); (morning + 130000, BeforeUnload);
             (morning + 140000, Unmount)]) as Hevs
    by (repeat constructor; discriminate).
  split; [exact Hi|]. split; [exact Hevs|].
  pose proof (nothing_accrues_after_endSession 0 (hhmmss 0) (morning + 90000)
                ClickEndSession (mountedAt morning) morningInstance _ Hi
                (or_introl eq_refl) Hevs) as H.
  cbv zeta in H. destruct H as (Ht & _). exact (Ht "2024-01-01").
Defined.

Lemma mount_resumes_witness :
  storedActive resumableWorld = true
  ∧ startMarker resumableWorld = Some morning
  ∧ persistedTotal
      (world (step 0 (hhmmss 0) (morning + 7260000) Tick
                (step 0 (hhmmss 0) (morning + 7200000) Mount
                   (unmounted resumableWorld))))
      (todayKey (morning + 7200000))
    = persistedTotal resumableWorld (todayKey (morning + 7200000))
      + (morning + 7260000 - morning).
Proof.
  split; [reflexivity|]. split; [reflexivity|].
  pose proof (mount_resumes_recorded_session 0 (hhmmss 0) (morning + 7200000)
                (morning + 7260000) morning resumableWorld eq_refl eq_refl) as H.
  cbv zeta in H. destruct H as (_ & _ & _ & Ht). exact Ht.
Defined.

Lemma total_survives_remount_witness :
  inst (mountedAt morning) = Some morningInstance
  ∧ startMarker (world (mountedAt morning)) = Some morning
  ∧ todayKey (morning + 1000) = c_todayKey (firstRender morningInstance)
  ∧ morning + 1000 ≠ 0
  ∧ dailyUptime
      (hooks (world (step 0 (hhmmss 0) (morning + 1000) Mount
                       (step 0 (hhmmss 0) (morning + 500) Unmount
                          (mountedAt morning)))))
    = persistedTotal (world (mountedAt morning)) (todayKey (morning + 1000))
      + (morning + 500 - morning).
Proof.
  assert (inst (mountedAt morning) = Some morningInstance) as Hi
    by (vm_compute; reflexivity).
  assert (startMarker (world (mountedAt morning)) = Some morning) as Hs
    by (vm_compute; reflexivity).
  assert (todayKey (morning + 1000) = c_todayKey (firstRender morningInstance))
    as Hk by (vm_compute; reflexivity).
  assert (morning + 1000 ≠ 0) as Hne by (vm_compute; discriminate).
  split; [exact Hi|]. split; [exact Hs|]. split; [exact Hk|]. split; [exact Hne|].
  pose proof (total_survives_remount 0 (hhmmss 0) (morning + 500) (morning + 1000)
                morning (mountedAt morning) morningInstance Hi Hs Hk Hne) as H.
  cbv zeta in H. destruct H as (Hd & _). exact Hd.
Defined.

Lemma foreign_keys_witness :
  "sessionCount" ≠ "sessionStart" ∧ "sessionCount" ≠ "sessionActive"
  ∧ (∀ day, "sessionCount" ≠ dailyKey day)
  ∧ items (world (step 0 (hhmmss 0) (morning + 60000) Unmount (mountedAt morning)))
      !! "sessionCount"
    = items (world (mountedAt morning)) !! "sessionCount".
Proof.
  assert ("sessionCount" ≠ "sessionStart") as H1 by discriminate.
  assert ("sessionCount" ≠ "sessionActive") as H2 by discriminate.
  assert (∀ day, "sessionCount" ≠ dailyKey day) as H3
    by (intros day; discriminate).
  split; [exact H1|]. split; [exact H2|]. split; [exact H3|].
  exact (foreign_keys_untouched 0 (hhmmss 0) (morning + 60000) Unmount
           (mountedAt morning) "sessionCount" H1 H2 H3).
Defined.

Lemma chart_never_goes_down_witness :
  Forall (λ te : Z * Event, te.2 ≠ Mount)
    (tickEvents morning 2 ++ [(morning + 130000, ClickEndSession)])
  ∧ (∀ s, startMarker (world (step 0 (hhmmss 0) morning Mount
                                (unmounted emptyWorld))) = Some s →
          Forall (λ te : Z * Event, s ≤ te.1)
            (tickEvents morning 2 ++ [(morning + 130000, ClickEndSession)]))
  ∧ nondecreasing
      (chartValues
         (hooks (world (run 0 (hhmmss 0)
                          (tickEvents morning 2
                           ++ [(morning + 130000, ClickEndSession)])
                          (step 0 (hhmmss 0) morning Mount
                             (unmounted emptyWorld)))))).
Proof.
  assert (Forall (λ te : Z * Event, te.2 ≠ Mount)
            (tickEvents morning 2 ++ [(morning + 130000, ClickEndSession)]))
    as Hevs by (repeat constructor; discriminate).
  assert (∀ s, startMarker (world (step 0 (hhmmss 0) morning Mount
                                     (unmounted emptyWorld))) = Some s →
               Forall (λ te : Z * Event, s ≤ te.1)
                 (tickEvents morning 2 ++ [(morning + 130000, ClickEndSession)]))
    as Hclock.
  { intros s Hs. vm_compute in Hs. injection Hs as <-.
    repeat constructor; vm_compute; discriminate. }
  split; [exact Hevs|]. split; [exact Hclock|].
  pose proof (chart_never_goes_down 0 (hhmmss 0) morning emptyWorld _ Hevs Hclock)
    as H.
  cbv zeta in H. destruct H as (Hnd & _). exact Hnd.
Defined.

Lemma ticks_after_mount_witness :
  storedActive emptyWorld = false ∧ morning ≠ 0
  ∧ persistedTotal
      (world (run 0 (hhmmss 0) ((morning, Mount) :: tickEvents morning 3)
                (unmounted emptyWorld)))
      (todayKey morning)
    = persistedTotal emptyWorld (todayKey morning)
      + 30000 * Z.of_nat 3 * (Z.of_nat 3 + 1).
Proof.
  assert (morning ≠ 0) as Hne by (vm_compute; discriminate).
  split; [reflexivity|]. split; [exact Hne|].
  pose proof (ticks_after_mount 0 (hhmmss 0) 3 morning emptyWorld eq_refl Hne) as H.
  cbv zeta in H. destruct H as (Ht & _). exact Ht.
Defined.

Lemma tick_changes_one_entry_witness :
  inst (mountedAt morning) = Some morningInstance
  ∧ startMarker (world (step 0 (hhmmss 0) (morning + 60000) Tick
                          (mountedAt morning)))
    = startMarker (world (mountedAt morning)).
Proof.
  assert (inst (mountedAt morning) = Some morningInstance) as Hi
    by (vm_compute; reflexivity).
  split; [exact Hi|].
  pose proof (tick_changes_one_entry 0 (hhmmss 0) (morning + 60000)
                (mountedAt morning) morningInstance "sessionStart" Hi) as H.
  cbv zeta in H. destruct H as (_ & Hm & _). exact Hm.
Defined.

Lemma displayed_total_witness :
  inst (mountedAt morning) = Some morningInstance
  ∧ startMarker (world (mountedAt morning)) = Some morning
  ∧ dailyUptime
      (hooks (world (step 0 (hhmmss 0) (morning + 60000) ClickEndSession
                       (mountedAt morning))))
    = persistedTotal
        (world (step 0 (hhmmss 0) (morning + 60000) ClickEndSession
                  (mountedAt morning)))
        (c_todayKey (lastRender morningInstance)).
Proof.
  assert (inst (mountedAt morning) = Some morningInstance) as Hi
    by (vm_compute; reflexivity).
  assert (startMarker (world (mountedAt morning)) = Some morning) as Hs
    by (vm_compute; reflexivity).
  split; [exact Hi|]. split; [exact Hs|].
  pose proof (displayed_total_is_persisted_total 0 (hhmmss 0) (morning + 60000)
                (mountedAt morning) morningInstance morning Hi Hs) as H.
  cbv zeta in H. destruct H as (_ & Hc & _). exact Hc.
Defined.

(** ** The active state and the persisted flag *)

Section Flag.

Variable tz : Z.
Variable toLocaleTimeString : Z → string.

Lemma flag_step (now : Z) (e : Event) (p : Page) :
  (is_Some (inst p) →
   sessionActive (hooks (world p)) = storedActive (world p)
   ∧ (is_Some (startMarker (world p)) → storedActive (world p) = true)) →
  let p' := step tz toLocaleTimeString now e p in
  is_Some (inst p') →
  sessionActive (hooks (world p')) = storedActive (world p')
  ∧ (is_Some (startMarker (world p')) → storedActive (world p') = true).
Proof.
  intros Hinv. cbv zeta.
  assert (∀ c v, sessionActive (hooks (exec (endSession c) v))
                 = storedActive (exec (endSession c) v)
               ∧ (is_Some (startMarker (exec (endSession c) v)) →
                  storedActive (exec (endSession c) v) = true)) as Hend.
  { intros c v. rewrite endSession_startMarker. split; [|by intros [? ?]].
    rewrite endSession_sessionActive. unfold storedActive.
    rewrite endSession_exec.
    destruct (startMarker v); cbn [items]; by rewrite lookup_insert_eq. }
  unfold step. destruct (inst p) as [i|] eqn:Hi.
  - specialize (Hinv ltac:(eauto)). destruct Hinv as [Hagree Hmarker].
    destruct e; cbn [handle world inst]; intros Hsome;
      try (by apply Hend); try (by rewrite Hi in Hsome; auto).
    + rewrite tick_startMarker, startMarker_setClock.
      rewrite tick_exec. destruct (if c_sessionActive _ then _ else _); [|done].
      unfold storedActive in *. cbn [items hooks sessionActive setClock].
      by rewrite lookup_insert_ne.
    + destruct (pendingQuery i); [|by rewrite Hi in Hsome; auto].
      cbn [handle world inst]. by rewrite applySnapshot_exec.
  - destruct e; intros Hsome; try (rewrite Hi in Hsome; by destruct Hsome).
    split; [|intros _; apply mount_storedActive].
    by rewrite mount_sessionActive, mount_storedActive.
Qed.

(** X17.  As long as the component is mounted, the [sessionActive] state
    mirrors the persisted flag, and a start marker is on record only while
    the flag says active: so it is after the mount, and every event keeps
    it so. *)
Theorem state_mirrors_persisted_flag
    (t0 : Z) (w : World) (evs : list (Z * Event)) :
  let p := run tz toLocaleTimeString ((t0, Mount) :: evs) (unmounted w) in
  is_Some (inst p) →
  sessionActive (hooks (world p)) = storedActive (world p)
  ∧ (is_Some (startMarker (world p)) → storedActive (world p) = true).
Proof.
  cbv zeta. unfold run. revert w.
  induction evs as [|[t e] evs IH] using rev_ind; intros w.
  - cbn [foldl fst snd]. apply flag_step. by intros [? ?].
  - rewrite app_comm_cons, foldl_app. cbn [foldl fst snd].
    apply flag_step. apply IH.
Qed.

End Flag.

Lemma state_mirrors_flag_witness :
  is_Some (inst (run 0 (hhmmss 0)
                   [(morning, Mount); (morning + 60000, Tick);
                    (morning + 90000, ClickEndSession)]
                   (unmounted resumableWorld)))
  ∧ sessionActive
      (hooks (world (run 0 (hhmmss 0)
                       [(morning, Mount); (morning + 60000, Tick);
                        (morning + 90000, ClickEndSession)]
                       (unmounted resumableWorld))))
    = storedActive
        (world (run 0 (hhmmss 0)
                  [(morning, Mount); (morning + 60000, Tick);
                   (morning + 90000, ClickEndSession)]
                  (unmounted resumableWorld))).
Proof.
  assert (is_Some (inst (run 0 (hhmmss 0)
                           [(morning, Mount); (morning + 60000, Tick);
                            (morning + 90000, ClickEndSession)]
                           (unmounted resumableWorld)))) as Hsome
    by (vm_compute; eauto).
  split; [exact Hsome|].
  pose proof (state_mirrors_persisted_flag 0 (hhmmss 0) morning resumableWorld
                [(morning + 60000, Tick); (morning + 90000, ClickEndSession)]
                Hsome) as H.
  destruct H as (Hagree & _). exact Hagree.
Defined.
